(** * Favorability progression of the dating-chatbot backend

    A shallow embedding of [backend/main.py]: the HTTP endpoints that read and
    report the favorability state of a conversation, the statistics and
    trends they derive from the message history, and the logic of the
    embedded [/ui2], [/profile] and [/analytics] client scripts; and of
    [backend/image_generator.py]: the token cache, the polling for a result
    and the three picture requests of the image client.

    Python's floats are binary64 numbers, carried by the rationals they
    denote: divisions and products are rounded to the nearest float, and
    [round(x, 1)] rounds the value of the float.

    [main.py] delegates persistence and the per-message favorability update to
    [backend/conversation_manager.py] ([ConversationManager]).  The endpoints
    are embedded from the source; the manager is a model, kept in its own
    module and marked as such. *)

From Stdlib Require Import ZArith QArith Qabs Qpower Qminmax Lqa Lia String Ascii List Bool Sorted.
From stdpp Require Import base option list gmap pretty sorting.

Local Open Scope Z_scope.

(** ** Python values *)

(** A [datetime]: the proleptic day number of its calendar date
    ([timestamp.date().toordinal()]) and the time of day in seconds. *)
Record datetime := mk_datetime {
  dt_date : Z;
  dt_second : Z
}.

(** [(later.date() - earlier.date()).days] *)
Definition date_diff_days (later earlier : datetime) : Z :=
  dt_date later - dt_date earlier.

(** The errors of the storage and responder collaborators. *)
Inductive manager_error := NotFound | UpstreamUnavailable | PersistenceError.

(** Python exceptions that can travel through an endpoint body. *)
Inductive exception :=
| HTTPException (status_code : Z)
| IndexError
| ZeroDivisionError
| UnicodeEncodeError
| ManagerError (e : manager_error).

(** The outcome of running a piece of Python: a value or a raised exception. *)
Inductive result (A : Type) :=
| Return (a : A)
| Raise (e : exception).
Arguments Return {A} a.
Arguments Raise {A} e.

#[global] Instance result_ret : MRet result := fun A a => Return a.
#[global] Instance result_bind : MBind result := fun A B k m =>
  match m with
  | Return a => k a
  | Raise e => Raise e
  end.

#[global] Instance result_fmap : FMap result := fun A B f m =>
  match m with
  | Return a => Return (f a)
  | Raise e => Raise e
  end.

(** [try: body / except HTTPException: raise /
     except Exception: raise HTTPException(status_code=500, ...)] *)
Definition reraise_http_else_500 {A} (body : result A) : result A :=
  match body with
  | Return a => Return a
  | Raise (HTTPException s) => Raise (HTTPException s)
  | Raise _ => Raise (HTTPException 500)
  end.

(** [try: body / except Exception: raise HTTPException(status_code=500, ...)];
    [HTTPException] is itself an [Exception], so it is caught too. *)
Definition except_all_500 {A} (body : result A) : result A :=
  match body with
  | Return a => Return a
  | Raise _ => Raise (HTTPException 500)
  end.

(** The status line the framework sends for an endpoint's outcome. *)
Definition http_status {A} (r : result A) : Z :=
  match r with
  | Return _ => 200
  | Raise (HTTPException s) => s
  | Raise _ => 500
  end.

(** [xs[0]] and [xs[-1]] *)
Definition py_first {A} (xs : list A) : result A :=
  match head xs with Some x => Return x | None => Raise IndexError end.
Definition py_last {A} (xs : list A) : result A :=
  match last xs with Some x => Return x | None => Raise IndexError end.

(** Rounding to the nearest integer, ties to even. *)
Definition round_half_even (q : Q) : Z :=
  let n := Qnum q in
  let d := Z.pos (Qden q) in
  let fl := n / d in
  let r2 := 2 * (n mod d) in
  if r2 <? d then fl
  else if d <? r2 then fl + 1
  else if Z.even fl then fl else fl + 1.

(** *** Floats

    A Python [float] is a binary64 number; it is carried here by the rational
    it denotes.  The integers the endpoints divide (message counts, day
    counts) convert to floats exactly, and every quotient and product below
    stays far inside the exponent range, which is therefore not modelled. *)

(** The [k] with [2 ^ k <= q < 2 ^ (k + 1)], for a positive [q]. *)
Definition floor_log2 (q : Q) : Z :=
  let k := Z.log2 (Qnum q) - Z.log2 (Z.pos (Qden q)) in
  if Qle_bool (2 ^ k) q then k else k - 1.

(** The float nearest to a rational: 53 significant bits, ties to even. *)
Definition binary64 (q : Q) : Q :=
  if Qeq_bool q 0 then 0%Q
  else
    let s := floor_log2 (Qabs q) - 52 in
    let m := round_half_even (Qabs q * 2 ^ (- s)) in
    let r := (inject_Z m * 2 ^ s)%Q in
    if Qle_bool 0 q then r else (- r)%Q.

(** [a / b] and [a * b] on floats: the exact result, rounded once.  True
    division of two integers is rounded the same way. *)
Definition float_div (a b : Q) : Q := binary64 (a / b).
Definition float_mul (a b : Q) : Q := binary64 (a * b).

(** [a / b] on integers. *)
Definition truediv (a b : Z) : result Q :=
  if b =? 0 then Raise ZeroDivisionError
  else Return (float_div (inject_Z a) (inject_Z b)).

(** [min(100, x)]: the first argument is kept unless the second is smaller. *)
Definition min100 (x : Q) : Q :=
  if Qlt_le_dec x 100 then x else 100%Q.

(** [round(x, 1)] of a float [x]: the decimal with one digit after the point
    nearest to the value [x] denotes, ties to even.  Python returns the float
    nearest to that decimal, which JSON writes as the decimal itself. *)
Definition round1 (x : Q) : Q :=
  (inject_Z (round_half_even (x * 10)) / 10)%Q.

Definition ascii_lower (c : ascii) : ascii :=
  let n := nat_of_ascii c in
  if ((65 <=? n) && (n <=? 90))%nat then ascii_of_nat (n + 32) else c.

(** [s.lower()], on the ASCII letters (no other letter lowers to one of
    j, s, o, n). *)
Fixpoint lower (s : string) : string :=
  match s with
  | EmptyString => EmptyString
  | String c rest => String (ascii_lower c) (lower rest)
  end.

(** ** Rows of the database *)

Record Character := mk_Character {
  character_id : Z;
  owner_id : Z;
  name : string;
  nickname : string;
  created_at : datetime
}.

Record Message := mk_Message {
  speaker_name : string;
  message_content : string;
  timestamp : datetime;
  favorability_level : Z
}.

Record Favorability := mk_Favorability {
  current_level : Z;
  message_count : Z;
  last_updated : datetime
}.

(** ** The conversation manager *)

Module ConversationManager.

(** Modelled from the spec: [backend/conversation_manager.py] is not part of
    the sources at hand.  The database it wraps: users, characters (a
    conversation is a user and one of their characters), one favorability
    record per conversation and the append-only message log, oldest first. *)
Record DB := mk_DB {
  users : gmap Z string;
  characters : gmap Z Character;
  favorabilities : gmap Z Favorability;
  messages : gmap Z (list Message)
}.

(** Modelled from the spec: the thresholds [main.py] reads as
    [ConversationManager.LEVEL_1_THRESHOLD] and [LEVEL_2_THRESHOLD]. *)
Definition LEVEL_1_THRESHOLD : Z := 20.
(** Modelled from the spec: the second threshold. *)
Definition LEVEL_2_THRESHOLD : Z := 50.

(** Modelled from the spec: the level of a message count,
    "count < LEVEL_1_THRESHOLD -> 1; LEVEL_1_THRESHOLD <= count <
    LEVEL_2_THRESHOLD -> 2; count >= LEVEL_2_THRESHOLD -> 3". *)
Definition calculate_level (count : Z) : Z :=
  if count <? LEVEL_1_THRESHOLD then 1
  else if count <? LEVEL_2_THRESHOLD then 2
  else 3.

(** Modelled from the spec: the milestone counts. *)
Definition MILESTONES : list Z := [50; 100; 200; 500; 1000].
(** Modelled from the spec: the anniversary ages, in days. *)
Definition ANNIVERSARIES : list Z := [7; 30; 100; 365].

(** Modelled from the spec: the read access of the repository.  A missing
    row is [None], which is what [main.py] tests with [if not ...]. *)
Definition get_character (db : DB) (cid : Z) : option Character :=
  characters db !! cid.

(** Modelled from the spec: [get_favorability], [None] without a record. *)
Definition get_favorability (db : DB) (cid : Z) : option Favorability :=
  favorabilities db !! cid.

(** Modelled from the spec: the messages of a conversation in append order. *)
Definition conversation_log (db : DB) (cid : Z) : list Message :=
  default [] (messages db !! cid).

(** Modelled from the spec: [list_recent], most recent first. *)
Definition get_conversation_history (db : DB) (cid : Z) (limit : Z)
  : list Message :=
  take (Z.to_nat limit) (reverse (conversation_log db cid)).

(** Modelled from the spec: the characters a user owns. *)
Definition get_user_characters (db : DB) (uid : Z) : list Character :=
  filter (fun c => owner_id c = uid) (snd <$> map_to_list (characters db)).

(** Modelled from the spec: [append]. *)
Definition save_message (db : DB) (cid : Z) (speaker content : string)
    (level : Z) (now : datetime) : DB :=
  mk_DB (users db) (characters db) (favorabilities db)
    (<[cid := conversation_log db cid ++ [mk_Message speaker content now level]]>
       (messages db)).

(** Modelled from the spec: a conversation is created with its initial
    favorability state, level 1 and no message counted. *)
Definition save_character (db : DB) (c : Character) : DB :=
  mk_DB (users db)
    (<[character_id c := c]> (characters db))
    (<[character_id c := mk_Favorability 1 0 (created_at c)]> (favorabilities db))
    (messages db).

(** Modelled from the spec: what [record_message] returns. *)
Record FavorabilityUpdate := mk_FavorabilityUpdate {
  new_level : Z;
  level_increased : bool;
  updated_count : Z;
  milestone_reached : bool;
  milestone_number : option Z;
  anniversary_reached : bool;
  anniversary_days : option Z
}.

(** Modelled from the spec: the age of a conversation, the difference of
    calendar dates between [now] and its first message. *)
Definition conversation_age_days (db : DB) (cid : Z) (now : datetime)
  : option Z :=
  (fun first => date_diff_days now (timestamp first)) <$> head (conversation_log db cid).

(** Modelled from the spec: [record_message].  The count goes up by one, the
    level is recomputed from it, and the signals are derived from the running
    values. *)
Definition record_message (db : DB) (cid : Z) (now : datetime)
  : DB * result FavorabilityUpdate :=
  match get_favorability db cid with
  | None => (db, Raise (ManagerError NotFound))
  | Some f =>
      let count := message_count f + 1 in
      let level := calculate_level count in
      let milestone := bool_decide (count ∈ MILESTONES) in
      let age := conversation_age_days db cid now in
      let anniversary :=
        match age with
        | Some d => bool_decide (d ∈ ANNIVERSARIES)
        | None => false
        end in
      (mk_DB (users db) (characters db)
         (<[cid := mk_Favorability level count now]> (favorabilities db))
         (messages db),
       Return {| new_level := level;
                 level_increased := current_level f <? level;
                 updated_count := count;
                 milestone_reached := milestone;
                 milestone_number := if milestone then Some count else None;
                 anniversary_reached := anniversary;
                 anniversary_days := if anniversary then age else None |})
  end.

(** Modelled from the spec: a run of [record_message] calls on one
    conversation, one per clock reading; the outcomes are collected in order. *)
Fixpoint record_messages (db : DB) (cid : Z) (clock : list datetime)
  : DB * list (result FavorabilityUpdate) :=
  match clock with
  | [] => (db, [])
  | now :: later =>
      let '(db1, r) := record_message db cid now in
      let '(db2, rs) := record_messages db1 cid later in
      (db2, r :: rs)
  end.

(** Modelled from the spec: the payload of a completed exchange, with the
    fields the [/ui2] script reads from it. *)
Record Reply := mk_Reply {
  reply : string;
  reply_favorability_level : Z;
  reply_message_count : Z;
  reply_level_increased : bool;
  reply_milestone_reached : bool;
  reply_milestone_number : option Z;
  reply_anniversary_reached : bool;
  reply_anniversary_days : option Z
}.

(** Modelled from the spec: the remote character responder, given the
    persona, the history and the user's message. *)
Definition responder := Character -> list Message -> string -> result string.

(** Modelled from the spec: [send_message].  The conversation is resolved,
    the user's message is appended with the level in effect, the responder
    is called, and only when it answers is the favorability updated (once)
    and the reply appended with the level after the update. *)
Definition send_message (respond : responder) (db : DB)
    (user_id cid : Z) (user_message : string) (now : datetime)
  : DB * result Reply :=
  match users db !! user_id, get_character db cid, get_favorability db cid with
  | Some user_name, Some character, Some f =>
      if bool_decide (owner_id character = user_id) then
        let db1 := save_message db cid user_name user_message (current_level f) now in
        match respond character (conversation_log db cid) user_message with
        | Raise _ => (db1, Raise (ManagerError UpstreamUnavailable))
        | Return text =>
            match record_message db1 cid now with
            | (db2, Raise e) => (db2, Raise e)
            | (db2, Return u) =>
                (save_message db2 cid (name character) text (new_level u) now,
                 Return {| reply := text;
                           reply_favorability_level := new_level u;
                           reply_message_count := updated_count u;
                           reply_level_increased := level_increased u;
                           reply_milestone_reached := milestone_reached u;
                           reply_milestone_number := milestone_number u;
                           reply_anniversary_reached := anniversary_reached u;
                           reply_anniversary_days := anniversary_days u |})
            end
        end
      else (db, Raise (ManagerError NotFound))
  | _, _, _ => (db, Raise (ManagerError NotFound))
  end.

End ConversationManager.

Import ConversationManager.

(** ** The endpoints of [main.py] *)

(** The three level names, and the one shown without a favorability record. *)
Definition LEVEL_NAME_1 : string := "陌生期".
Definition LEVEL_NAME_2 : string := "熟悉期".
Definition LEVEL_NAME_3 : string := "親密期".
Definition LEVEL_NAME_UNKNOWN : string := "未知".

(** [sum(1 for msg in messages if msg.speaker_name != character.name)] *)
Definition count_user_messages (character : Character) (msgs : list Message) : Z :=
  Z.of_nat (length (filter (fun msg => speaker_name msg <> name character) msgs)).

(** *** [POST /api/v2/send-message] *)

Record SendMessageRequest := mk_SendMessageRequest {
  req_user_id : Z;
  req_character_id : Z;
  req_message : string
}.

Definition send_message_v2 (respond : responder) (db : DB)
    (request : SendMessageRequest) (now : datetime) : DB * result Reply :=
  let '(db', r) :=
    send_message respond db (req_user_id request) (req_character_id request)
      (req_message request) now in
  (db', except_all_500 r).

(** *** [GET /api/v2/user-characters/{user_id}] *)

Record CharacterEntry := mk_CharacterEntry {
  entry_character_id : Z;
  entry_name : string;
  entry_nickname : string;
  entry_created_at : datetime;
  entry_favorability : Z
}.

Record UserCharacters := mk_UserCharacters {
  uc_user_id : Z;
  uc_character_count : Z;
  uc_characters : list CharacterEntry
}.

Definition user_character_entry (db : DB) (char : Character) : CharacterEntry :=
  {| entry_character_id := character_id char;
     entry_name := name char;
     entry_nickname := nickname char;
     entry_created_at := created_at char;
     entry_favorability :=
       match get_favorability db (character_id char) with
       | Some f => current_level f
       | None => 1
       end |}.

Definition get_user_characters_endpoint (db : DB) (user_id : Z)
  : result UserCharacters :=
  except_all_500
    (let characters := get_user_characters db user_id in
     Return {| uc_user_id := user_id;
               uc_character_count := Z.of_nat (length characters);
               uc_characters := user_character_entry db <$> characters |}).

(** *** [GET /api/v2/favorability/{character_id}] *)

Record FavorabilityStatus := mk_FavorabilityStatus {
  fs_character_id : Z;
  fs_current_level : Z;
  fs_message_count : Z;
  fs_last_updated : datetime;
  fs_level_1_threshold : Z;
  fs_level_2_threshold : Z
}.

(** The payload's [level_3_threshold] is left out: its constant is declared
    in the manager and no endpoint computes with it. *)
Definition get_favorability_status (db : DB) (cid : Z)
  : result FavorabilityStatus :=
  reraise_http_else_500
    (match get_favorability db cid with
     | None => Raise (HTTPException 404)
     | Some favorability =>
         Return {| fs_character_id := cid;
                   fs_current_level := current_level favorability;
                   fs_message_count := message_count favorability;
                   fs_last_updated := last_updated favorability;
                   fs_level_1_threshold := LEVEL_1_THRESHOLD;
                   fs_level_2_threshold := LEVEL_2_THRESHOLD |}
     end).

(** *** [GET /api/v2/character-profile/{character_id}] *)

(** "Calculate conversation days", as the profile and the export do it. *)
Definition conversation_days_of (msgs : list Message) : result Z :=
  if bool_decide (msgs <> []) && (1 <? Z.of_nat (length msgs)) then
    first ← py_last msgs;
    last ← py_first msgs;
    Return (date_diff_days (timestamp last) (timestamp first) + 1)
  else Return 0.

(** "Favorability progress": [(progress, next_level_at, level_name)]. *)
Definition favorability_progress (favorability : option Favorability)
  : Q * option Z * string :=
  match favorability with
  | Some f =>
      if current_level f =? 1 then
        (min100 (float_mul (float_div (inject_Z (message_count f)) 20) 100),
         Some 20, LEVEL_NAME_1)
      else if current_level f =? 2 then
        (min100 (float_mul (float_div (inject_Z (message_count f - 20)) 30) 100),
         Some 50, LEVEL_NAME_2)
      else (100%Q, None, LEVEL_NAME_3)
  | None => (0%Q, Some 20, LEVEL_NAME_UNKNOWN)
  end.

(** [round(total_messages / conversation_days, 1) if conversation_days > 0 else 0] *)
Definition average_messages_per_day (total_messages conversation_days : Z)
  : result Q :=
  if 0 <? conversation_days then
    q ← truediv total_messages conversation_days;
    Return (round1 q)
  else Return 0%Q.

Record ProfileFavorability := mk_ProfileFavorability {
  pf_current_level : Z;
  pf_level_name : string;
  pf_message_count : Z;
  pf_progress_percentage : Q;
  pf_next_level_at : option Z
}.

Record ProfileStatistics := mk_ProfileStatistics {
  ps_total_messages : Z;
  ps_user_messages : Z;
  ps_character_messages : Z;
  ps_conversation_days : Z;
  ps_first_message_date : option datetime;
  ps_last_message_date : option datetime;
  ps_average_messages_per_day : Q
}.

Record CharacterProfile := mk_CharacterProfile {
  cp_character : Character;
  cp_favorability : ProfileFavorability;
  cp_statistics : ProfileStatistics
}.

Definition get_character_profile (db : DB) (cid : Z) : result CharacterProfile :=
  reraise_http_else_500
    (match get_character db cid with
     | None => Raise (HTTPException 404)
     | Some character =>
         let favorability := get_favorability db cid in
         let messages := get_conversation_history db cid 1000 in
         let total_messages := Z.of_nat (length messages) in
         let user_messages := count_user_messages character messages in
         let character_messages := total_messages - user_messages in
         let first_message_date := timestamp <$> last messages in
         let last_message_date := timestamp <$> head messages in
         conversation_days ← conversation_days_of messages;
         let '(progress, next_level_at, level_name) :=
           favorability_progress favorability in
         average ← average_messages_per_day total_messages conversation_days;
         Return
           {| cp_character := character;
              cp_favorability :=
                {| pf_current_level :=
                     match favorability with Some f => current_level f | None => 1 end;
                   pf_level_name := level_name;
                   pf_message_count :=
                     match favorability with Some f => message_count f | None => 0 end;
                   pf_progress_percentage := round1 progress;
                   pf_next_level_at := next_level_at |};
              cp_statistics :=
                {| ps_total_messages := total_messages;
                   ps_user_messages := user_messages;
                   ps_character_messages := character_messages;
                   ps_conversation_days := conversation_days;
                   ps_first_message_date := first_message_date;
                   ps_last_message_date := last_message_date;
                   ps_average_messages_per_day := average |} |}
     end).

(** *** [GET /api/v2/export-conversation/{character_id}] *)

(** ["陌生期" if not favorability or favorability.current_level == 1
     else ("熟悉期" if favorability.current_level == 2 else "親密期")] *)
Definition level_name_or_default (favorability : option Favorability) : string :=
  match favorability with
  | None => LEVEL_NAME_1
  | Some f =>
      if current_level f =? 1 then LEVEL_NAME_1
      else if current_level f =? 2 then LEVEL_NAME_2
      else LEVEL_NAME_3
  end.

Record ExportFavorability := mk_ExportFavorability {
  ef_level : Z;
  ef_level_name : string;
  ef_message_count : Z
}.

(** The exported document: the JSON object, or the values the text lines
    interpolate (the text reports the level and its name, not the count). *)
Inductive ExportDocument :=
| ExportJson (total_messages conversation_days : Z)
    (favorability : ExportFavorability) (chronological : list Message)
| ExportTxt (total_messages conversation_days : Z)
    (level : Z) (level_name : string) (chronological : list Message).

(** The document of the requested format: [export_data] when
    [format.lower() == "json"], the text lines otherwise. *)
Definition export_document (favorability : option Favorability)
    (messages : list Message) (conversation_days : Z) (format : string)
  : ExportDocument :=
  let total_messages := Z.of_nat (length messages) in
  let level :=
    match favorability with Some f => current_level f | None => 1 end in
  if String.eqb (lower format) "json" then
    ExportJson total_messages conversation_days
      {| ef_level := level;
         ef_level_name := level_name_or_default favorability;
         ef_message_count :=
           match favorability with
           | Some f => message_count f
           | None => 0
           end |}
      (reverse messages)
  else
    ExportTxt total_messages conversation_days level
      (level_name_or_default favorability) (reverse messages).

(** [s.encode("latin-1")] succeeds when every character of [s] is below
    U+0100, that is when none of the UTF-8 bytes of [s] is 0xC4 or above. *)
Fixpoint latin1_encodable (s : string) : bool :=
  match s with
  | EmptyString => true
  | String c rest => (nat_of_ascii c <? 196)%nat && latin1_encodable rest
  end.

(** [Response(content=..., media_type=..., headers=...)]: the constructor
    encodes the name and the value of every header as latin-1, and raises
    when one cannot be (the media types of the export are ASCII). *)
Definition Response {A} (content : A) (headers : list (string * string))
  : result A :=
  if forallb (fun h => latin1_encodable h.1 && latin1_encodable h.2) headers
  then Return content
  else Raise UnicodeEncodeError.

Definition double_quote : string := String (ascii_of_nat 34) EmptyString.

(** [f"{character.name}_對話記錄_{datetime.now().strftime('%Y%m%d_%H%M%S')}.json"],
    or [.txt]; [now] is the formatted time. *)
Definition export_filename (character : Character) (format now : string)
  : string :=
  String.append (name character)
    (String.append "_對話記錄_"
       (String.append now
          (if String.eqb (lower format) "json" then ".json" else ".txt"))).

(** [{"Content-Disposition": f'attachment; filename="{filename}"'}] *)
Definition export_headers (filename : string) : list (string * string) :=
  [("Content-Disposition",
    String.append "attachment; filename="
      (String.append double_quote (String.append filename double_quote)))].

(** The body of the endpoint up to its [return]: the [content] and the
    [filename] of the download. *)
Definition export_content (db : DB) (cid : Z) (format now : string)
  : result (ExportDocument * string) :=
  match get_character db cid with
  | None => Raise (HTTPException 404)
  | Some character =>
      let favorability := get_favorability db cid in
      let messages := get_conversation_history db cid 10000 in
      conversation_days ← conversation_days_of messages;
      Return (export_document favorability messages conversation_days format,
              export_filename character format now)
  end.

Definition export_conversation (db : DB) (cid : Z) (format now : string)
  : result ExportDocument :=
  reraise_http_else_500
    ('(content, filename) ← export_content db cid format now;
     Response content (export_headers filename)).

(** *** [GET /api/v2/analytics/{character_id}] *)

(** "Simulate favorability level progression based on message count" *)
Definition simulated_level (i : Z) : Z :=
  if 50 <=? i then 3
  else if 20 <=? i then 2
  else 1.

Record ProgressionEntry := mk_ProgressionEntry {
  pe_message_count : Z;
  pe_level : Z;
  pe_timestamp : datetime;
  pe_level_name : string
}.

(** The loop [for i, msg in enumerate(reversed(messages), 1)], from index [i]
    with the running [current_level], over the messages still to visit. *)
Fixpoint progression_loop (i current_level : Z) (chronological : list Message)
  : list ProgressionEntry :=
  match chronological with
  | [] => []
  | msg :: rest =>
      let level := simulated_level i in
      if negb (level =? current_level) then
        {| pe_message_count := i;
           pe_level := level;
           pe_timestamp := timestamp msg;
           pe_level_name :=
             if level =? 1 then LEVEL_NAME_1
             else if level =? 2 then LEVEL_NAME_2
             else LEVEL_NAME_3 |}
        :: progression_loop (i + 1) level rest
      else progression_loop (i + 1) current_level rest
  end.

Definition favorability_progression (messages : list Message)
  : list ProgressionEntry :=
  progression_loop 1 1 (reverse messages).

Record AnalyticsOverview := mk_AnalyticsOverview {
  ao_total_messages : Z;
  ao_user_messages : Z;
  ao_character_messages : Z;
  ao_conversation_days : Z;
  ao_first_message : datetime;
  ao_last_message : datetime;
  ao_avg_messages_per_day : Q
}.

Record AnalyticsFavorability := mk_AnalyticsFavorability {
  af_current_level : Z;
  af_current_level_name : string;
  af_message_count : Z;
  af_progression : list ProgressionEntry
}.

(** The [analytics] object; the daily trends, active hours and streak are
    left out, nothing below depends on them. *)
Record Analytics := mk_Analytics {
  an_overview : AnalyticsOverview;
  an_favorability : AnalyticsFavorability
}.

(** The response; [ar_analytics = None] is the empty object [{}] of the early
    return, which carries no character name either. *)
Record AnalyticsResponse := mk_AnalyticsResponse {
  ar_character_id : Z;
  ar_character_name : option string;
  ar_total_messages : Z;
  ar_analytics : option Analytics
}.

Definition get_analytics (db : DB) (cid : Z) : result AnalyticsResponse :=
  reraise_http_else_500
    (match get_character db cid with
     | None => Raise (HTTPException 404)
     | Some character =>
         let favorability := get_favorability db cid in
         let messages := get_conversation_history db cid 10000 in
         if bool_decide (messages = []) then
           Return {| ar_character_id := cid;
                     ar_character_name := None;
                     ar_total_messages := 0;
                     ar_analytics := None |}
         else
           let total_messages := Z.of_nat (length messages) in
           let user_messages := count_user_messages character messages in
           let character_messages := total_messages - user_messages in
           first_message_time ← timestamp <$> py_last messages;
           last_message_time ← timestamp <$> py_first messages;
           let conversation_days :=
             date_diff_days last_message_time first_message_time + 1 in
           let progression := favorability_progression messages in
           avg_messages_per_day ←
             (if 0 <? conversation_days
              then truediv total_messages conversation_days
              else Return 0%Q);
           Return
             {| ar_character_id := cid;
                ar_character_name := Some (name character);
                ar_total_messages := total_messages;
                ar_analytics := Some
                  {| an_overview :=
                       {| ao_total_messages := total_messages;
                          ao_user_messages := user_messages;
                          ao_character_messages := character_messages;
                          ao_conversation_days := conversation_days;
                          ao_first_message := first_message_time;
                          ao_last_message := last_message_time;
                          ao_avg_messages_per_day := round1 avg_messages_per_day |};
                     an_favorability :=
                       {| af_current_level :=
                            match favorability with
                            | Some f => current_level f
                            | None => 1
                            end;
                          af_current_level_name := level_name_or_default favorability;
                          af_message_count :=
                            match favorability with
                            | Some f => message_count f
                            | None => 0
                            end;
                          af_progression := progression |} |} |}
     end).

(** *** The trends and the streak of [get_analytics] *)

(** JSON values, as the endpoints send them and the remote services answer;
    [JDate d] is the ISO string of day [d], which is the key that day has in
    [messages_by_day]. *)
#[warnings="-register-all"]
Inductive json :=
| JNull
| JBool (b : bool)
| JInt (n : Z)
| JFloat (q : Q)
| JStr (s : string)
| JDate (d : Z)
| JList (l : list json)
| JObj (o : gmap string json).

(** [timestamp.hour] *)
Definition dt_hour (t : datetime) : Z := dt_second t / 3600.

(** A [defaultdict(int)] with numbers as keys: its items, in insertion order. *)
Definition counter : Type := list (Z * Z).

(** [d.get(key, 0)] *)
Fixpoint counter_get (d : counter) (key : Z) : Z :=
  match d with
  | [] => 0
  | (k, v) :: rest => if k =? key then v else counter_get rest key
  end.

(** [d[key] += 1]: a new key enters at the end with 1. *)
Fixpoint counter_incr (d : counter) (key : Z) : counter :=
  match d with
  | [] => [(key, 1)]
  | (k, v) :: rest =>
      if k =? key then (k, v + 1) :: rest else (k, v) :: counter_incr rest key
  end.

(** [for msg in messages: d[key(msg)] += 1] *)
Definition count_messages (key : Message -> Z) (messages : list Message)
  : counter :=
  foldl (fun d msg => counter_incr d (key msg)) [] messages.

Definition messages_by_day (messages : list Message) : counter :=
  count_messages (fun msg => dt_date (timestamp msg)) messages.

Definition messages_by_hour (messages : list Message) : counter :=
  count_messages (fun msg => dt_hour (timestamp msg)) messages.

(** "Daily message trends (last 30 days)": [for i in range(29, -1, -1)]. *)
Definition daily_trends (today : Z) (by_day : counter)
  : list (gmap string json) :=
  (fun i =>
     let date := today - i in
     {[ "date" := JDate date;
        "message_count" := JInt (counter_get by_day date) ]})
  <$> reverse (seqZ 0 30).

(** One step of a stable sort by decreasing count: [x] comes earlier in the
    original order than everything in [sorted]. *)
Fixpoint insert_by_count (x : Z * Z) (sorted : list (Z * Z)) : list (Z * Z) :=
  match sorted with
  | [] => [x]
  | y :: rest =>
      if y.2 <=? x.2 then x :: y :: rest else y :: insert_by_count x rest
  end.

(** [sorted(items, key=lambda x: x[1], reverse=True)] *)
Definition sorted_by_count (items : list (Z * Z)) : list (Z * Z) :=
  foldr insert_by_count [] items.

(** "Most active hours" *)
Definition top_hours (by_hour : counter) : list (Z * Z) :=
  take 5 (sorted_by_count by_hour).

Definition most_active_hours (by_hour : counter) : list (gmap string json) :=
  (fun item =>
     {[ "hour" := JInt item.1;
        "message_count" := JInt item.2;
        "time_range" :=
          JStr (String.append (pretty item.1)
                  (String.append ":00-"
                     (String.append (pretty (item.1 + 1)) ":00"))) ]})
  <$> top_hours by_hour.

(** [[{"hour": h, "count": messages_by_hour.get(h, 0)} for h in range(24)]] *)
Definition hourly_counts (by_hour : counter) : list (gmap string json) :=
  (fun h => {[ "hour" := JInt h; "count" := JInt (counter_get by_hour h) ]})
  <$> seqZ 0 24.

(** [sorted(set(xs))] *)
Definition sorted_set (xs : list Z) : list Z :=
  merge_sort Z.le (remove_dups xs).

(** The loop [for i in range(1, len(dates_with_messages))], with the date of
    index [i-1], the running [current_streak] and [longest_streak], over the
    dates from index [i] on. *)
Fixpoint streak_loop (previous current_streak longest_streak : Z)
    (dates : list Z) : Z :=
  match dates with
  | [] => longest_streak
  | date :: rest =>
      if date - previous =? 1 then
        streak_loop date (current_streak + 1)
          (Z.max longest_streak (current_streak + 1)) rest
      else streak_loop date 1 longest_streak rest
  end.

(** "Longest streak (consecutive days with messages)" *)
Definition longest_streak (messages : list Message) : Z :=
  match sorted_set ((fun msg => dt_date (timestamp msg)) <$> messages) with
  | [] => 1
  | first :: rest => streak_loop first 1 1 rest
  end.

(** The [trends] object and the streak of the overview, for the messages of
    the history and the date of the request. *)
Record AnalyticsTrends := mk_AnalyticsTrends {
  at_daily : list (gmap string json);
  at_most_active_hours : list (gmap string json);
  at_messages_by_hour : list (gmap string json);
  at_longest_streak_days : Z
}.

Definition analytics_trends (today : Z) (messages : list Message)
  : AnalyticsTrends :=
  {| at_daily := daily_trends today (messages_by_day messages);
     at_most_active_hours := most_active_hours (messages_by_hour messages);
     at_messages_by_hour := hourly_counts (messages_by_hour messages);
     at_longest_streak_days := longest_streak messages |}.

(** *** The [/analytics] page script *)

(** [object.key]: [None] is [undefined]. *)
Definition js_get (key : string) (object : gmap string json) : option json :=
  object !! key.

(** The labels and the data points [displayDailyTrendChart] hands to the
    chart: [dailyData.map(d => d.date)] and [dailyData.map(d => d.count)]. *)
Definition displayDailyTrendChart (dailyData : list (gmap string json))
  : list (option json) * list (option json) :=
  (js_get "date" <$> dailyData, js_get "count" <$> dailyData).

(** The hours and the data points of [displayHourlyActivityChart]. *)
Definition displayHourlyActivityChart (hourlyData : list (gmap string json))
  : list (option json) * list (option json) :=
  (js_get "hour" <$> hourlyData, js_get "count" <$> hourlyData).

(** The cards of [displayActiveHours], each with [item.hour] and
    [item.count]; [None] is the "no data" placeholder of an empty list. *)
Definition displayActiveHours (activeHours : list (gmap string json))
  : option (list (option json * option json)) :=
  if bool_decide (length activeHours = 0%nat) then None
  else Some ((fun item => (js_get "hour" item, js_get "count" item)) <$> activeHours).

(** ** The [/ui2] client script *)

(** The notifications [sendMessage] appends to the chat after a reply. *)
Inductive Notification :=
| LevelUpNotification (text : string)
| MilestoneNotification (text : string)
| AnniversaryNotification (text : string).

Definition milestoneTexts : gmap Z string :=
  list_to_map
    [(50, "我們已經聊了50條訊息了呢！好開心能和你聊這麼多 💕");
     (100, "哇！100條訊息了！時間過得好快，和你聊天真的很愉快 ✨");
     (200, "不知不覺已經200條訊息了！謝謝你一直陪著我 💖");
     (500, "天啊！500條訊息了！我們的感情真的越來越深厚了 🌟");
     (1000, "1000條訊息了！這是一個特別的里程碑，謝謝你一直在我身邊 💝")].

Definition anniversaryTexts : gmap Z string :=
  list_to_map
    [(7, "我們認識一週了！這一週和你聊天真的很開心 💝");
     (30, "一個月的時光！謝謝你這段時間的陪伴，讓我的每一天都充滿期待 🌸");
     (100, "100天了！這是我們相遇的第100天，感覺時間過得好快，希望能一直這樣陪伴你 🌹");
     (365, "一整年了！謝謝你這一年來一直在我身邊，你對我來說真的很重要 💖✨")].

(** A number of the payload inside a template literal; [None] is JSON null. *)
Definition js_number (n : option Z) : string :=
  match n with
  | Some n => pretty n
  | None => "null"
  end.

(** [table[key] || fallback] *)
Definition text_or (table : gmap Z string) (key : option Z) (fallback : string)
  : string :=
  match key ≫= (fun k => table !! k) with
  | Some text => text
  | None => fallback
  end.

Definition levelUpText (favorabilityLevel : Z) : string :=
  if favorabilityLevel =? 2 then "你們的關係變得更熟悉了！ 💛"
  else if favorabilityLevel =? 3 then "你們的關係變得親密了！ 💖"
  else "".

(** The success branch of [sendMessage], after the reply is displayed. *)
Definition sendMessage_notifications (data : Reply) : list Notification :=
  let favorabilityLevel := reply_favorability_level data in
  (if reply_level_increased data
   then [LevelUpNotification
           (String.append "🎉 好感度提升！" (levelUpText favorabilityLevel))]
   else [])
  ++ (if reply_milestone_reached data
      then [MilestoneNotification
              (String.append "🎊 里程碑達成！"
                 (text_or milestoneTexts (reply_milestone_number data)
                    (String.append "我們已經聊了"
                       (String.append (js_number (reply_milestone_number data))
                          "條訊息了！"))))]
      else [])
  ++ (if reply_anniversary_reached data
      then [AnniversaryNotification
              (String.append "🎂 紀念日快樂！"
                 (text_or anniversaryTexts (reply_anniversary_days data)
                    (String.append "我們已經認識"
                       (String.append (js_number (reply_anniversary_days data))
                          "天了！"))))]
      else []).

(** *** What the trends are measured against *)

(** The number of messages a key function sends to [k]. *)
Definition occurrences (key : Message -> Z) (messages : list Message) (k : Z) : Z :=
  Z.of_nat (length (filter (fun msg => key msg = k) messages)).

(** The dates on which there is a message. *)
Definition message_dates (messages : list Message) : list Z :=
  (fun msg => dt_date (timestamp msg)) <$> messages.

(** [n] consecutive days from [d] on, each with a message. *)
Definition streak_from (messages : list Message) (d n : Z) : Prop :=
  forall k, 0 <= k < n -> d + k ∈ message_dates messages.

(** A time of day within the day. *)
Definition valid_time (msg : Message) : Prop :=
  0 <= dt_second (timestamp msg) < 86400.

(** *** The [/profile] page script *)

(** The line under the progress bar: the messages exchanged and how many
    are still needed for the next level, or the message of the highest
    level. *)
Inductive ProgressText :=
| MessagesToNextLevel (exchanged remaining : Z)
| HighestLevelReached (exchanged : Z).

(** [if (fav.next_level_at)]: null and 0 are falsy. *)
Definition js_truthy_number (n : option Z) : bool :=
  match n with
  | Some n => negb (n =? 0)
  | None => false
  end.

Definition loadProfile_progressText (fav : ProfileFavorability) : ProgressText :=
  if js_truthy_number (pf_next_level_at fav) then
    MessagesToNextLevel (pf_message_count fav)
      (default 0 (pf_next_level_at fav) - pf_message_count fav)
  else HighestLevelReached (pf_message_count fav).

(** A history in the order of its dates, newest first. *)
Definition newest_first (messages : list Message) : Prop :=
  StronglySorted
    (fun a b => dt_date (timestamp b) <= dt_date (timestamp a)) messages.

(** ** The image generation client ([image_generator.py]) *)

Module ImageGenerator.

(** A JSON object, as [requests] hands it over and takes it. *)
Definition dict : Type := gmap string json.

(** The truth value Python gives a JSON value. *)
Definition truthy (v : json) : bool :=
  match v with
  | JNull => false
  | JBool b => b
  | JInt n => negb (n =? 0)
  | JFloat q => negb (Qeq_bool q 0)
  | JStr s => negb (String.eqb s "")
  | JDate _ => true
  | JList l => negb (bool_decide (l = []))
  | JObj o => negb (bool_decide (o = ∅))
  end.

(** [d.get(key)]: a missing key gives [None], which JSON writes null. *)
Definition dict_get (d : dict) (key : string) : json := default JNull (d !! key).

(** The claims of a token.  [jwt.encode] signs them with the secret key; an
    encoded token stands for its claims here. *)
Record Token := mk_Token {
  iss : string;
  exp : Z;
  nbf : Z
}.

(** The fields of the client that change: the cached token and the time
    its cache entry runs out; [access_key_id] is fixed at construction. *)
Record Client := mk_Client {
  access_key_id : string;
  _token : option Token;
  _token_expiry : Z
}.

(** [__init__] *)
Definition init (key_id : string) : Client :=
  {| access_key_id := key_id; _token := None; _token_expiry := 0 |}.

(** The readings of [int(time.time())] one call of [_get_valid_token] can
    make: its own, and the two of [_generate_jwt_token] for [exp] and [nbf]. *)
Record TokenClock := mk_TokenClock {
  current_time : Z;
  time_at_exp : Z;
  time_at_nbf : Z
}.

Definition _generate_jwt_token (self : Client) (clock : TokenClock) : Token :=
  {| iss := access_key_id self;
     exp := time_at_exp clock + 1800;
     nbf := time_at_nbf clock - 5 |}.

(** [not self._token or current_time >= (self._token_expiry - 300)] *)
Definition token_due (self : Client) (now : Z) : bool :=
  match _token self with
  | None => true
  | Some _ => _token_expiry self - 300 <=? now
  end.

Definition _get_valid_token (self : Client) (clock : TokenClock)
  : Client * Token :=
  match _token self with
  | Some token =>
      if _token_expiry self - 300 <=? current_time clock then
        let token' := _generate_jwt_token self clock in
        ({| access_key_id := access_key_id self;
            _token := Some token';
            _token_expiry := current_time clock + 1800 |}, token')
      else (self, token)
  | None =>
      let token' := _generate_jwt_token self clock in
      ({| access_key_id := access_key_id self;
          _token := Some token';
          _token_expiry := current_time clock + 1800 |}, token')
  end.

(** A run of [_get_valid_token] calls, with the token each call returns. *)
Fixpoint valid_tokens (self : Client) (clocks : list TokenClock)
  : Client * list Token :=
  match clocks with
  | [] => (self, [])
  | clock :: later =>
      let '(self1, token) := _get_valid_token self clock in
      let '(self2, tokens) := valid_tokens self1 later in
      (self2, token :: tokens)
  end.

(** What a request comes back with: the JSON object of the answer, or the
    text of the exception that [requests.get], [requests.post],
    [raise_for_status] or [json] raised. *)
Inductive Response :=
| Answer (body : dict)
| Failure (message : string).

(** A request as the service sees it: the path under [base_url], the bearer
    token and, for a POST, the JSON payload. *)
Record Request := mk_Request {
  url : string;
  bearer : Token;
  payload : option dict
}.

(** [generate_image]: the payload it builds. *)
Definition image_payload (model_id prompt neg_prompt : string)
    (width height steps : Z) (cfg_scale : Q) (seed samples : Z)
    (reference_image_url : option string) (lora_configs : option (list json))
  : dict :=
  let anime_prompt :=
    String.append "2D anime style, "
      (String.append prompt ", high quality, detailed, beautiful") in
  let base : dict :=
    {[ "model_id" := JStr model_id;
       "prompt" := JStr anime_prompt;
       "neg_prompt" :=
         JStr (if truthy (JStr neg_prompt) then neg_prompt
               else "3D, realistic, ugly, blurry, low quality, bad anatomy");
       "width" := JInt width;
       "height" := JInt height;
       "steps" := JInt steps;
       "cfg_scale" := JFloat cfg_scale;
       "seed" := JInt seed;
       "samples" := JInt samples;
       "format" := JStr "PNG";
       "force_translation" := JBool false;
       "watermark_config" := JObj {[ "type" := JStr "MakaLogo" ]} ]} in
  let with_reference : dict :=
    match reference_image_url with
    | Some image_url =>
        if truthy (JStr image_url) then
          <["controlnet_configs" :=
              JList [JObj {[ "type" := JStr "reference_only";
                             "img_url" := JStr image_url;
                             "weight" := JFloat 0.8 ]}]]> base
        else base
    | None => base
    end in
  match lora_configs with
  | Some configs =>
      if truthy (JList configs) then <["lora_configs" := JList configs]> with_reference
      else with_reference
  | None => with_reference
  end.

(** [generate_image]: the answer of the service, or [{"error": str(e)}]. *)
Definition generate_image (self : Client) (clock : TokenClock)
    (post : Request -> Response)
    (model_id prompt neg_prompt : string)
    (width height steps : Z) (cfg_scale : Q) (seed samples : Z)
    (reference_image_url : option string) (lora_configs : option (list json))
  : Client * dict :=
  let '(self', token) := _get_valid_token self clock in
  let request :=
    {| url := "/v1/imgenstd/imgen";
       bearer := token;
       payload := Some (image_payload model_id prompt neg_prompt width height
                          steps cfg_scale seed samples reference_image_url
                          lora_configs) |} in
  (self',
   match post request with
   | Answer body => body
   | Failure message => {[ "error" := JStr message ]}
   end).

(** [state == text] for a value read from an answer. *)
Definition is_str (v : json) (text : string) : bool :=
  match v with
  | JStr s => String.eqb s text
  | _ => false
  end.

(** What [get_task_result] meets while it polls: the reading of
    [time.time()] before the loop, the reading at each test of the loop
    condition, and the answer to the request of each round. *)
Record PollWorld := mk_PollWorld {
  start_time : Q;
  time_at_test : nat -> Q;
  answer_to : nat -> Request -> Response
}.

Section Polling.

(** [str(value)], as the f-strings render a value read from an answer. *)
Variable str : json -> string.

(** The loop of [get_task_result] from round [i] on; [fuel] bounds the
    rounds the model follows, and [None] says it ran out. *)
Fixpoint poll_loop (fuel : nat) (world : PollWorld) (request : Request)
    (max_wait : Z) (i : nat) : option dict :=
  match fuel with
  | O => None
  | S fuel' =>
      if Qlt_le_dec (time_at_test world i - start_time world) (inject_Z max_wait)
      then
        match answer_to world i request with
        | Failure message => Some {[ "error" := JStr message ]}
        | Answer result =>
            let state := dict_get result "state" in
            if is_str state "SUCCESS" then Some result
            else if is_str state "FAILED" then
              Some {[ "error" := JStr "Image generation failed";
                      "details" := JObj result ]}
            else if is_str state "PENDING" || is_str state "RUNNING" then
              poll_loop fuel' world request max_wait (S i)
            else
              Some {[ "error" := JStr (String.append "Unknown state: " (str state)) ]}
        end
      else Some {[ "error" := JStr "Timeout waiting for image generation" ]}
  end.

Definition get_task_result (fuel : nat) (self : Client) (clock : TokenClock)
    (world : PollWorld) (task_id : json) (max_wait : Z)
  : option (Client * dict) :=
  let '(self', token) := _get_valid_token self clock in
  let request :=
    {| url := String.append "/v1/imgenstd/result/" (str task_id);
       bearer := token;
       payload := None |} in
  (fun result => (self', result)) <$> poll_loop fuel world request max_wait 0.

(** Everything one of the [generate_character_...] calls meets: the clock and
    the service at the submission, and the clock and the service while it
    waits for the result. *)
Record World := mk_World {
  submit_clock : TokenClock;
  post : Request -> Response;
  poll_clock : TokenClock;
  polls : PollWorld
}.

(** The exceptions the last lines can raise on an answer of unexpected
    shape. *)
Inductive py_error := AttributeError | KeyError | TypeError.

(** Where the lines the three [generate_character_...] functions share end:
    with [return None], with an exception, or with [result["images"][0]] at
    hand, together with the task id. *)
Inductive Found :=
| NoImage
| Broken (e : py_error)
| FirstImage (task_id : json) (image_data : json).

(** From the answer to the submission to the first image of the result. *)
Definition first_image (fuel : nat) (self : Client) (world : World)
    (task_response : dict) : option (Client * Found) :=
  if bool_decide ("error" ∈ dom task_response) then Some (self, NoImage)
  else
    let task_id := dict_get task_response "task_id" in
    if negb (truthy task_id) then Some (self, NoImage)
    else
      '(self', result) ← get_task_result fuel self (poll_clock world)
                           (polls world) task_id 60;
      if bool_decide ("error" ∈ dom result)
         || negb (truthy (dict_get result "images"))
      then Some (self', NoImage)
      else
        Some (self',
              match dict_get result "images" with
              | JList (image_data :: _) => FirstImage task_id image_data
              | JStr _ | JDate _ => Broken AttributeError
              | JObj _ => Broken KeyError
              | _ => Broken TypeError
              end).

(** What a [generate_character_...] call returns or raises. *)
Inductive Outcome :=
| Returned (value : option dict)
| Raised (e : py_error).

(** [image_data.get(key)] on the first image. *)
Definition image_field (image_data : json) (key : string) : py_error + json :=
  match image_data with
  | JObj d => inr (dict_get d key)
  | _ => inl AttributeError
  end.

Definition generate_character_face (fuel : nat) (self : Client) (world : World)
    (appearance_description character_name model_id : string) (seed : Z)
  : option (Client * Outcome) :=
  let prompt :=
    String.append "portrait of "
      (String.append character_name
         (String.append ", "
            (String.append appearance_description
               ", smiling, looking at viewer, upper body, cute expression"))) in
  let '(self1, task_response) :=
    generate_image self (submit_clock world) (post world)
      model_id prompt "" 960 960 50 8 seed 1 None None in
  '(self2, found) ← first_image fuel self1 world task_response;
  Some (self2,
        match found with
        | NoImage => Returned None
        | Broken e => Raised e
        | FirstImage task_id image_data =>
            match image_field image_data "raw", image_field image_data "seed" with
            | inr raw, inr image_seed =>
                Returned (Some {[ "url" := raw;
                                  "seed" := image_seed;
                                  "task_id" := task_id ]})
            | inl e, _ | _, inl e => Raised e
            end
        end).

(** [seed or 0] *)
Definition seed_or_0 (seed : option Z) : Z :=
  match seed with
  | Some n => if n =? 0 then 0 else n
  | None => 0
  end.

Definition generate_character_activity (fuel : nat) (self : Client)
    (world : World)
    (appearance_description character_name activity model_id : string)
    (reference_image_url : option string) (seed : option Z)
  : option (Client * Outcome) :=
  let prompt :=
    String.append character_name
      (String.append ", "
         (String.append appearance_description
            (String.append ", "
               (String.append activity
                  ", full body, dynamic pose, detailed background")))) in
  let '(self1, task_response) :=
    generate_image self (submit_clock world) (post world)
      model_id prompt "" 960 1280 50 8 (seed_or_0 seed) 1
      reference_image_url None in
  '(self2, found) ← first_image fuel self1 world task_response;
  Some (self2,
        match found with
        | NoImage => Returned None
        | Broken e => Raised e
        | FirstImage _ image_data =>
            match image_field image_data "raw" with
            | inr raw => Returned (Some {[ "url" := raw ]})
            | inl e => Raised e
            end
        end).

Definition generate_character_with_user (fuel : nat) (self : Client)
    (world : World)
    (appearance_description character_name user_description scene model_id : string)
    (reference_image_url : option string) (seed : option Z)
  : option (Client * Outcome) :=
  let prompt :=
    String.append character_name
      (String.append ", "
         (String.append appearance_description
            (String.append ", and "
               (String.append user_description
                  (String.append ", "
                     (String.append scene
                        ", two people, happy together, romantic atmosphere")))))) in
  let '(self1, task_response) :=
    generate_image self (submit_clock world) (post world)
      model_id prompt "" 1280 960 50 8 (seed_or_0 seed) 1
      reference_image_url None in
  '(self2, found) ← first_image fuel self1 world task_response;
  Some (self2,
        match found with
        | NoImage => Returned None
        | Broken e => Raised e
        | FirstImage _ image_data =>
            match image_field image_data "raw" with
            | inr raw => Returned (Some {[ "url" := raw ]})
            | inl e => Raised e
            end
        end).

End Polling.

End ImageGenerator.

(** ** What the image client is measured against *)

(** The cached token outlives its cache entry and names the client's key. *)
Definition cache_sound (self : ImageGenerator.Client) : Prop :=
  match ImageGenerator._token self with
  | Some token =>
      ImageGenerator._token_expiry self <= ImageGenerator.exp token /\
      ImageGenerator.iss token = ImageGenerator.access_key_id self
  | None => True
  end.

(** Every round of polling starts at least two seconds after the one before:
    the [time.sleep(2)] between them has run its time. *)
Definition sleeps_two_seconds (world : ImageGenerator.PollWorld) : Prop :=
  forall i,
    (ImageGenerator.start_time world + inject_Z (2 * Z.of_nat i)
     <= ImageGenerator.time_at_test world i)%Q.

(** The rounds [get_task_result] can make within [max_wait] seconds. *)
Definition max_rounds (max_wait : Z) : nat := Z.to_nat ((max_wait + 1) / 2).

(** An answer that says the task is not finished yet. *)
Definition pending (response : ImageGenerator.Response) : Prop :=
  exists body,
    response = ImageGenerator.Answer body /\
    (ImageGenerator.dict_get body "state" = JStr "PENDING" \/
     ImageGenerator.dict_get body "state" = JStr "RUNNING").

(** A submission the service did not accept: the request failed, or the
    answer carries an ["error"] or no usable task id. *)
Definition refused (response : ImageGenerator.Response) : Prop :=
  match response with
  | ImageGenerator.Failure _ => True
  | ImageGenerator.Answer body =>
      "error" ∈ dom body \/
      ImageGenerator.truthy (ImageGenerator.dict_get body "task_id") = false
  end.

(** *** Sample data for the image client *)

(** A rendering of the values the samples use: a string as it is. *)
Definition sample_str (v : json) : string :=
  match v with
  | JStr s => s
  | JInt n => pretty n
  | _ => "None"
  end.

(** A clock that stands at [t] for a whole call. *)
Definition at_second (t : Z) : ImageGenerator.TokenClock :=
  ImageGenerator.mk_TokenClock t t t.

(** A service that takes two rounds to finish a task and then shows one
    image; rounds start every two seconds. *)
Definition finishing_polls : ImageGenerator.PollWorld :=
  ImageGenerator.mk_PollWorld 0
    (fun i => inject_Z (2 * Z.of_nat i))
    (fun i _ =>
       if (i <? 2)%nat
       then ImageGenerator.Answer {[ "state" := JStr "RUNNING" ]}
       else ImageGenerator.Answer
              {[ "state" := JStr "SUCCESS";
                 "images" := JList [JObj {[ "raw" := JStr "https://img/1.png";
                                            "seed" := JInt 42 ]}] ]}).

Definition accepting_world : ImageGenerator.World :=
  ImageGenerator.mk_World (at_second 100)
    (fun _ => ImageGenerator.Answer {[ "task_id" := JStr "task-1" ]})
    (at_second 101) finishing_polls.

Definition refusing_world : ImageGenerator.World :=
  ImageGenerator.mk_World (at_second 100)
    (fun _ => ImageGenerator.Failure "503 Server Error")
    (at_second 101) finishing_polls.

(** ** Well-formed favorability states *)

(** The invariant of a favorability record: a counter that never is negative,
    and a level that is the one its count determines. *)
Definition consistent (f : Favorability) : Prop :=
  0 <= message_count f /\ current_level f = calculate_level (message_count f).

(** The favorability record of a conversation after a run of calls. *)
Definition favorability_after (db : DB) (cid : Z) (clock : list datetime)
  : option Favorability :=
  get_favorability (fst (record_messages db cid clock)) cid.

(** ** Sample data *)

(** Midnight of day [d]. *)
Definition day (d : Z) : datetime := mk_datetime d 0.

Definition yuki : Character := mk_Character 1 7 "Yuki" "Yu" (day 0).

(** A responder that always answers, and one that is out of reach. *)
Definition answering : responder := fun _ _ _ => Return "嗨！".
Definition unreachable : responder :=
  fun _ _ _ => Raise (ManagerError UpstreamUnavailable).

Definition empty_db : DB := mk_DB ∅ ∅ ∅ ∅.

(** User 7 right after their character was created: level 1, nothing counted. *)
Definition fresh_db : DB :=
  save_character (mk_DB {[7 := "Dave"]} ∅ ∅ ∅) yuki.

(** The same conversation after the character's greeting was stored. *)
Definition greeted_db : DB := save_message fresh_db 1 "Yuki" "你好" 1 (day 0).

(** A character whose favorability record is missing, without any message and
    with a single one. *)
Definition orphan_db : DB := mk_DB {[7 := "Dave"]} {[1 := yuki]} ∅ ∅.
Definition orphan_greeted_db : DB := save_message orphan_db 1 "Yuki" "你好" 1 (day 0).

(** A record that breaks the invariant: level 2 with nothing counted. *)
Definition skewed_db : DB :=
  mk_DB {[7 := "Dave"]} {[1 := yuki]} {[1 := mk_Favorability 2 0 (day 0)]} ∅.

(** A conversation one exchange short of the second threshold, started on
    day 0 and last touched on day 3. *)
Definition chatting_db : DB :=
  mk_DB {[7 := "Dave"]} {[1 := yuki]}
    {[1 := mk_Favorability 2 49 (day 3)]}
    {[1 := [mk_Message "Yuki" "你好" (day 0) 1; mk_Message "Dave" "hi" (day 3) 2]]}.

(** *** Sample data for the analytics *)

(** Hour [h] of day [d]. *)
Definition at_hour (d h : Z) : datetime := mk_datetime d (h * 3600).

(** A history, newest first: messages on days 0, 1 and 2, then on days 4
    and 5, in the morning and in the evening. *)
Definition sample_history : list Message :=
  [mk_Message "Dave" "e" (at_hour 5 9) 1;
   mk_Message "Yuki" "d" (at_hour 4 21) 1;
   mk_Message "Dave" "c" (at_hour 2 21) 1;
   mk_Message "Yuki" "b" (at_hour 1 9) 1;
   mk_Message "Dave" "a" (at_hour 0 21) 1].

(** The conversation with that history. *)
Definition busy_db : DB :=
  mk_DB {[7 := "Dave"]} {[1 := yuki]}
    {[1 := mk_Favorability 1 5 (at_hour 5 9)]}
    {[1 := reverse sample_history]}.

(** [lra] reads a division by a numeral once it is a product with a fraction. *)
Ltac q_constants :=
  unfold Qdiv in *;
  change (/ 10)%Q with (1 # 10)%Q in *;
  change (/ 20)%Q with (1 # 20)%Q in *;
  change (/ 30)%Q with (1 # 30)%Q in *;
  change (inject_Z 0) with 0%Q in *;
  change (inject_Z 1000) with 1000%Q in *.

(** * Properties *)

(** ** Rounding *)

Lemma round_half_even_ge (q : Q) (a : Z) :
  (inject_Z a <= q)%Q -> a <= round_half_even q.
Proof.
  destruct q as [n d]. unfold Qle, round_half_even. simpl. intros H.
  assert (Hfl : a <= n / Z.pos d) by (apply Z.div_le_lower_bound; lia).
  repeat case_match; lia.
Qed.

Lemma round_half_even_le (q : Q) (b : Z) :
  (q <= inject_Z b)%Q -> round_half_even q <= b.
Proof.
  destruct q as [n d]. unfold Qle, round_half_even. simpl. intros H.
  pose proof (Z.div_mod n (Z.pos d) ltac:(lia)) as Hdm.
  pose proof (Z.mod_pos_bound n (Z.pos d) ltac:(lia)) as Hm.
  assert (Hfl : n / Z.pos d <= b) by (apply Z.div_le_upper_bound; lia).
  destruct (decide (n / Z.pos d = b)) as [Heq|Hne].
  - assert (n mod Z.pos d = 0) by nia.
    destruct (2 * (n mod Z.pos d) <? Z.pos d) eqn:E; [lia|].
    apply Z.ltb_ge in E. lia.
  - repeat case_match; lia.
Qed.

Lemma round1_bounds (x : Q) :
  (0 <= x)%Q -> (x <= 100)%Q -> (0 <= round1 x /\ round1 x <= 100)%Q.
Proof.
  intros H0 H100. unfold round1.
  assert (Hlo : 0 <= round_half_even (x * 10)).
  { apply round_half_even_ge. change (inject_Z 0) with 0%Q. lra. }
  assert (Hhi : round_half_even (x * 10) <= 1000).
  { apply round_half_even_le. change (inject_Z 1000) with 1000%Q. lra. }
  rewrite Zle_Qle in Hlo, Hhi. q_constants.
  split; lra.
Qed.

Lemma round1_inject_Z (k : Z) : (round1 (inject_Z k) == inject_Z k)%Q.
Proof.
  assert (E : round_half_even (inject_Z k * 10) = k * 10).
  { unfold round_half_even.
    change (Qnum (inject_Z k * 10)) with (k * 10).
    change (Z.pos (Qden (inject_Z k * 10))) with 1.
    rewrite Z.mod_1_r, Z.div_1_r. reflexivity. }
  unfold round1. rewrite E, inject_Z_mult. change (inject_Z 10) with 10%Q.
  field.
Qed.

(** ** Levels and thresholds *)

Lemma calculate_level_simulated (count : Z) :
  calculate_level count = simulated_level count.
Proof.
  unfold calculate_level, simulated_level, LEVEL_1_THRESHOLD, LEVEL_2_THRESHOLD.
  repeat case_match; lia.
Qed.

Lemma calculate_level_mono (a b : Z) :
  a <= b -> calculate_level a <= calculate_level b.
Proof.
  unfold calculate_level, LEVEL_1_THRESHOLD, LEVEL_2_THRESHOLD.
  intros. repeat case_match; lia.
Qed.

Lemma calculate_level_range (count : Z) : 1 <= calculate_level count <= 3.
Proof. unfold calculate_level. repeat case_match; lia. Qed.

(** The level rises between two consecutive counts exactly at a threshold. *)
Lemma calculate_level_crossing (count : Z) :
  calculate_level (count - 1) < calculate_level count <->
  count = 20 \/ count = 50.
Proof.
  unfold calculate_level, LEVEL_1_THRESHOLD, LEVEL_2_THRESHOLD.
  repeat case_match; lia.
Qed.

(** C1: the level of a message count is 1 below 20, 2 from 20 up to 49 and 3
    from 50 on; the four boundary counts 19, 20, 49 and 50 give 1, 2, 2, 3. *)
Theorem simulated_level_thresholds (count : Z) :
  (count < 20 -> simulated_level count = 1) /\
  (20 <= count < 50 -> simulated_level count = 2) /\
  (50 <= count -> simulated_level count = 3) /\
  simulated_level 19 = 1 /\ simulated_level 20 = 2 /\
  simulated_level 49 = 2 /\ simulated_level 50 = 3.
Proof.
  unfold simulated_level.
  repeat split; try reflexivity; intros; repeat case_match; lia.
Qed.

(** The progression the analytics endpoint reports: every entry sits at a
    threshold count, carries the level of that count, and the entries come in
    increasing order of count. *)
Lemma progression_loop_entries (msgs : list Message) (i cur : Z) :
  cur = simulated_level (i - 1) ->
  Forall (fun e =>
            i <= pe_message_count e < i + Z.of_nat (length msgs) /\
            (pe_message_count e = 20 \/ pe_message_count e = 50) /\
            pe_level e = simulated_level (pe_message_count e))
    (progression_loop i cur msgs).
Proof.
  revert i cur. induction msgs as [|msg rest IH]; intros i cur Hcur; simpl.
  - constructor.
  - assert (Hcross : simulated_level i <> cur -> i = 20 \/ i = 50).
    { subst cur. rewrite <- !calculate_level_simulated. intros Hne.
      apply calculate_level_crossing.
      pose proof (calculate_level_mono (i - 1) i ltac:(lia)). lia. }
    destruct (simulated_level i =? cur) eqn:E; simpl.
    + apply Z.eqb_eq in E.
      eapply Forall_impl; [apply (IH (i + 1) cur)|].
      * rewrite <- E. f_equal. lia.
      * simpl. intros e (? & ? & ?). repeat split; try done; lia.
    + apply Z.eqb_neq in E. constructor.
      * simpl. repeat split; first [lia | by apply Hcross].
      * eapply Forall_impl; [apply (IH (i + 1) (simulated_level i))|].
        -- f_equal. lia.
        -- simpl. intros e (? & ? & ?). repeat split; try done; lia.
Qed.

Lemma progression_loop_lower (msgs : list Message) (i cur : Z) :
  Forall (fun e => i <= pe_message_count e) (progression_loop i cur msgs).
Proof.
  revert i cur. induction msgs as [|msg rest IH]; intros i cur; simpl.
  - constructor.
  - case_match.
    + constructor; [simpl; lia|].
      eapply Forall_impl; [apply IH|]. simpl. intros. lia.
    + eapply Forall_impl; [apply IH|]. simpl. intros. lia.
Qed.

Lemma progression_loop_sorted (msgs : list Message) (i cur : Z) :
  StronglySorted (fun e1 e2 => pe_message_count e1 < pe_message_count e2)
    (progression_loop i cur msgs).
Proof.
  revert i cur. induction msgs as [|msg rest IH]; intros i cur; simpl.
  - constructor.
  - case_match; [|apply IH].
    constructor; [apply IH|].
    eapply Forall_impl; [apply progression_loop_lower|]. simpl. intros. lia.
Qed.

(** The simulated progression never steps down: later entries carry levels
    that are at least as high. *)
Lemma favorability_progression_monotone (messages : list Message) :
  StronglySorted (fun e1 e2 => pe_level e1 <= pe_level e2)
    (favorability_progression messages).
Proof.
  unfold favorability_progression.
  pose proof (progression_loop_entries (reverse messages) 1 1 eq_refl) as Hall.
  pose proof (progression_loop_sorted (reverse messages) 1 1) as Hsorted.
  induction Hsorted as [|e es Hs IH Hlt]; [constructor|].
  apply Forall_cons in Hall as [(_ & _ & He) Hes].
  constructor; [by apply IH|].
  rewrite Forall_forall in Hlt, Hes |- *. intros e' Hin.
  destruct (Hes e' Hin) as (_ & _ & He'). rewrite He, He'.
  rewrite <- !calculate_level_simulated. apply calculate_level_mono.
  specialize (Hlt e' Hin). lia.
Qed.

(** ** The favorability update *)

Lemma record_messages_cons (db : DB) (cid : Z) (now : datetime)
    (later : list datetime) :
  record_messages db cid (now :: later) =
  ((record_messages (record_message db cid now).1 cid later).1,
   (record_message db cid now).2
     :: (record_messages (record_message db cid now).1 cid later).2).
Proof.
  change (record_messages db cid (now :: later))
    with (let '(db1, r) := record_message db cid now in
          let '(db2, rs) := record_messages db1 cid later in
          (db2, r :: rs)).
  destruct (record_message db cid now) as [db1 r]. simpl.
  by destruct (record_messages db1 cid later).
Qed.

Lemma record_message_absent (db : DB) (cid : Z) (now : datetime) :
  get_favorability db cid = None ->
  record_message db cid now = (db, Raise (ManagerError NotFound)).
Proof. intros H. unfold record_message. by rewrite H. Qed.

Lemma record_message_present (db : DB) (cid : Z) (now : datetime)
    (f : Favorability) :
  get_favorability db cid = Some f ->
  exists u,
    (record_message db cid now).2 = Return u /\
    get_favorability (record_message db cid now).1 cid
      = Some (mk_Favorability (new_level u) (updated_count u) now) /\
    updated_count u = message_count f + 1 /\
    new_level u = calculate_level (updated_count u) /\
    level_increased u = (current_level f <? new_level u).
Proof.
  intros H. unfold record_message. rewrite H.
  eexists; split; [reflexivity|]. cbn.
  split; [apply lookup_insert_eq|]. by repeat split.
Qed.

Lemma consistent_step (f : Favorability) (now : datetime) :
  consistent f ->
  consistent (mk_Favorability (calculate_level (message_count f + 1))
                (message_count f + 1) now).
Proof. intros [Hc _]. split; simpl; [lia|reflexivity]. Qed.

Lemma favorability_after_app (db : DB) (cid : Z) (before later : list datetime) :
  favorability_after db cid (before ++ later) =
  favorability_after (record_messages db cid before).1 cid later.
Proof.
  unfold favorability_after. f_equal.
  revert db. induction before as [|now rest IH]; intros db; [done|].
  rewrite <- app_comm_cons, !record_messages_cons. simpl. apply IH.
Qed.

(** A run of calls on an existing record counts every call, and leaves a
    record whose level is the one of its count. *)
Lemma favorability_after_run (db : DB) (cid : Z) (f : Favorability)
    (clock : list datetime) :
  get_favorability db cid = Some f ->
  exists f',
    favorability_after db cid clock = Some f' /\
    message_count f' = message_count f + Z.of_nat (length clock) /\
    (consistent f -> consistent f') /\
    (clock <> [] -> current_level f' = calculate_level (message_count f')).
Proof.
  revert db f. induction clock as [|now later IH]; intros db f Hf.
  - exists f. split; [exact Hf|]. split; [simpl; lia|]. by split.
  - destruct (record_message_present db cid now f Hf)
      as (u & _ & Hf1 & Hcount & Hlevel & _).
    destruct (IH _ _ Hf1) as (f' & Hafter & Hc & Hcons & Hlv).
    exists f'. unfold favorability_after in *.
    rewrite record_messages_cons. simpl in *.
    split; [|split; [|split]].
    + done.
    + rewrite Hc, Hcount. lia.
    + intros Hcf. apply Hcons. rewrite Hlevel, Hcount.
      by apply consistent_step.
    + intros _. destruct later as [|t later']; [|by apply Hlv].
      simpl in Hafter. rewrite Hf1 in Hafter. injection Hafter as <-.
      simpl. done.
Qed.

(** C2: along every run of [record_message] calls on a conversation the count
    only grows and the level follows it without ever stepping down: the level
    after any further calls is at least the level before them, and it is the
    level the thresholds give to the count. *)
Theorem current_level_never_decreases (db : DB) (cid : Z) (f : Favorability)
    (before later : list datetime) :
  get_favorability db cid = Some f ->
  consistent f ->
  exists f1 f2,
    favorability_after db cid before = Some f1 /\
    favorability_after db cid (before ++ later) = Some f2 /\
    message_count f2 = message_count f1 + Z.of_nat (length later) /\
    current_level f1 = calculate_level (message_count f1) /\
    current_level f2 = calculate_level (message_count f2) /\
    current_level f1 <= current_level f2.
Proof.
  intros Hf Hcons.
  destruct (favorability_after_run db cid f before Hf)
    as (f1 & H1 & Hc1 & Hcons1 & _).
  destruct (favorability_after_run _ cid f1 later H1)
    as (f2 & H2 & Hc2 & Hcons2 & _).
  exists f1, f2. rewrite favorability_after_app.
  destruct (Hcons1 Hcons) as [? Hl1]. destruct (Hcons2 (Hcons1 Hcons)) as [? Hl2].
  repeat split; try done.
  rewrite Hl1, Hl2. apply calculate_level_mono. lia.
Qed.

(** C3: a call reports a milestone, with the count as its number, exactly
    when the updated count is one of 50, 100, 200, 500 and 1000; at any other
    count it reports none. *)
Theorem milestone_signal (db : DB) (cid : Z) (now : datetime) (f : Favorability) :
  get_favorability db cid = Some f ->
  exists u,
    (record_message db cid now).2 = Return u /\
    updated_count u = message_count f + 1 /\
    (milestone_reached u = true <->
       updated_count u = 50 \/ updated_count u = 100 \/ updated_count u = 200 \/
       updated_count u = 500 \/ updated_count u = 1000) /\
    (milestone_reached u = true -> milestone_number u = Some (updated_count u)) /\
    (milestone_reached u = false -> milestone_number u = None).
Proof.
  intros Hf. unfold record_message. rewrite Hf.
  eexists; split; [reflexivity|]. cbn.
  split; [reflexivity|]. split; [|split; intros ->; reflexivity].
  rewrite bool_decide_eq_true. unfold MILESTONES.
  rewrite !elem_of_cons, elem_of_nil. tauto.
Qed.

(** C4: a call reports an anniversary, with the age as its number of days,
    exactly when the difference between the calendar date of the call and the
    one of the conversation's first message is 7, 30, 100 or 365 days; the
    message count plays no part. *)
Theorem anniversary_signal (db : DB) (cid : Z) (now : datetime) (f : Favorability)
    (first : Message) :
  get_favorability db cid = Some f ->
  head (conversation_log db cid) = Some first ->
  exists u,
    (record_message db cid now).2 = Return u /\
    let age := dt_date now - dt_date (timestamp first) in
    (anniversary_reached u = true <->
       age = 7 \/ age = 30 \/ age = 100 \/ age = 365) /\
    (anniversary_reached u = true -> anniversary_days u = Some age) /\
    (anniversary_reached u = false -> anniversary_days u = None).
Proof.
  intros Hf Hfirst. unfold record_message, conversation_age_days.
  rewrite Hf, Hfirst.
  eexists; split; [reflexivity|]. cbn. unfold date_diff_days.
  split; [|split; intros ->; reflexivity].
  rewrite bool_decide_eq_true. unfold ANNIVERSARIES.
  rewrite !elem_of_cons, elem_of_nil. tauto.
Qed.

(** A conversation without any message has no age, hence no anniversary. *)
Lemma anniversary_needs_first_message (db : DB) (cid : Z) (now : datetime)
    (f : Favorability) :
  get_favorability db cid = Some f ->
  conversation_log db cid = [] ->
  exists u,
    (record_message db cid now).2 = Return u /\
    anniversary_reached u = false /\ anniversary_days u = None.
Proof.
  intros Hf Hlog. unfold record_message, conversation_age_days.
  rewrite Hf, Hlog. eexists; split; [reflexivity|]. by cbn.
Qed.

(** The outcome of the call at position [i] of a run, and the record it
    found. *)
Lemma record_messages_outcome (clock : list datetime) (db : DB) (cid : Z)
    (f : Favorability) (i : nat) (now : datetime) :
  get_favorability db cid = Some f ->
  clock !! i = Some now ->
  exists before u,
    favorability_after db cid (take i clock) = Some before /\
    (record_messages db cid clock).2 !! i = Some (Return u) /\
    message_count before = message_count f + Z.of_nat i /\
    updated_count u = message_count before + 1 /\
    new_level u = calculate_level (updated_count u) /\
    level_increased u = (current_level before <? new_level u) /\
    (consistent f -> consistent before).
Proof.
  revert db f i. induction clock as [|t later IH]; intros db f i Hf Hi; [done|].
  destruct (record_message_present db cid t f Hf)
    as (u & Hu & Hf1 & Hcount & Hlevel & Hinc).
  rewrite record_messages_cons. destruct i as [|i]; simpl.
  - exists f, u. split; [exact Hf|]. split; [by rewrite Hu|].
    split; [lia|]. split; [done|]. split; [done|]. by split.
  - simpl in Hi. destruct (IH _ _ i Hf1 Hi)
      as (before & u' & Hb & Hu' & Hcb & Hcu' & Hl' & Hi' & Hcons').
    exists before, u'. unfold favorability_after in *.
    rewrite record_messages_cons. simpl in *.
    split; [done|]. split; [done|]. split; [lia|]. split; [done|].
    split; [done|]. split; [done|].
    intros Hc. apply Hcons'. rewrite Hlevel, Hcount. by apply consistent_step.
Qed.

(** C5: a call reports [level_increased] exactly when the level it computes
    is above the level it found; along a run on a well-formed record that is
    at the calls that bring the count to 20 and to 50, once each, and at no
    other call. *)
Theorem level_increased_at_crossings (db : DB) (cid : Z) (f : Favorability)
    (clock : list datetime) (i : nat) (now : datetime) :
  get_favorability db cid = Some f ->
  clock !! i = Some now ->
  exists before u,
    favorability_after db cid (take i clock) = Some before /\
    (record_messages db cid clock).2 !! i = Some (Return u) /\
    updated_count u = message_count f + Z.of_nat i + 1 /\
    (level_increased u = true <-> current_level before < new_level u) /\
    (consistent f ->
     (level_increased u = true <-> updated_count u = 20 \/ updated_count u = 50)).
Proof.
  intros Hf Hi.
  destruct (record_messages_outcome clock db cid f i now Hf Hi)
    as (before & u & Hb & Hu & Hcb & Hcu & Hl & Hinc & Hcons).
  exists before, u. split; [done|]. split; [done|]. split; [lia|].
  rewrite Hinc, Z.ltb_lt. split; [done|].
  intros Hc. destruct (Hcons Hc) as [_ Hlb].
  rewrite Hlb, Hl, <- calculate_level_crossing.
  replace (updated_count u - 1) with (message_count before) by lia. done.
Qed.

(** ** Missing records and failing collaborators *)

Lemma send_message_absent (respond : responder) (db : DB) (user_id cid : Z)
    (text : string) (now : datetime) :
  get_favorability db cid = None ->
  send_message respond db user_id cid text now
    = (db, Raise (ManagerError NotFound)).
Proof.
  intros H. unfold send_message. rewrite H.
  by destruct (users db !! user_id), (get_character db cid).
Qed.

(** C6, as the code has it: without a favorability record [record_message]
    and [send_message] fail with [NotFound] and leave the database as it was,
    and the favorability endpoint answers 404; the send-message endpoint
    reports the failure, like every other one, as 500. *)
Theorem missing_record_not_found (respond : responder) (db : DB)
    (request : SendMessageRequest) (now : datetime) :
  get_favorability db (req_character_id request) = None ->
  record_message db (req_character_id request) now
    = (db, Raise (ManagerError NotFound)) /\
  send_message respond db (req_user_id request) (req_character_id request)
      (req_message request) now
    = (db, Raise (ManagerError NotFound)) /\
  get_favorability_status db (req_character_id request)
    = Raise (HTTPException 404) /\
  http_status (get_favorability_status db (req_character_id request)) = 404 /\
  send_message_v2 respond db request now = (db, Raise (HTTPException 500)).
Proof.
  intros H. split; [by apply record_message_absent|].
  split; [by apply send_message_absent|].
  unfold get_favorability_status, send_message_v2.
  rewrite H, (send_message_absent _ _ _ _ _ _ H). done.
Qed.

(** C6 fails as stated: on an empty database the manager's [NotFound] leaves
    the send-message endpoint as status 500, not 404. *)
Lemma send_message_v2_not_found_is_500 :
  let request := mk_SendMessageRequest 7 1 "hi" in
  get_favorability empty_db 1 = None /\
  (send_message answering empty_db 7 1 "hi" (day 3)).2
    = Raise (ManagerError NotFound) /\
  http_status (send_message_v2 answering empty_db request (day 3)).2 = 500 /\
  http_status (send_message_v2 answering empty_db request (day 3)).2 <> 404.
Proof. repeat split. vm_compute. discriminate. Qed.

(** C7: when the responder fails, the exchange fails with
    [UpstreamUnavailable] (status 500 at the endpoint); the favorability
    records are untouched, and the log has grown by the user's message alone,
    stamped with the level in effect. *)
Theorem failed_responder_keeps_state (respond : responder) (db : DB)
    (request : SendMessageRequest) (now : datetime) (user_name : string)
    (character : Character) (f : Favorability) (e : exception) :
  let cid := req_character_id request in
  users db !! req_user_id request = Some user_name ->
  get_character db cid = Some character ->
  owner_id character = req_user_id request ->
  get_favorability db cid = Some f ->
  respond character (conversation_log db cid) (req_message request) = Raise e ->
  let outcome :=
    send_message respond db (req_user_id request) cid (req_message request) now in
  outcome.2 = Raise (ManagerError UpstreamUnavailable) /\
  favorabilities outcome.1 = favorabilities db /\
  get_favorability outcome.1 cid = Some f /\
  conversation_log outcome.1 cid
    = conversation_log db cid
        ++ [mk_Message user_name (req_message request) now (current_level f)] /\
  (send_message_v2 respond db request now).1 = outcome.1 /\
  http_status (send_message_v2 respond db request now).2 = 500.
Proof.
  intros cid Hu Hc Ho Hf Hr outcome. subst outcome.
  unfold send_message_v2, send_message. fold cid.
  rewrite Hu, Hc, Hf, bool_decide_true by done. rewrite Hr. cbn.
  repeat split; try done.
  unfold conversation_log at 1. cbn. by rewrite lookup_insert_eq.
Qed.

(** ** Statistics of the read endpoints *)

Lemma min100_Qmin (x : Q) : min100 x = Qmin 100 x.
Proof.
  unfold min100, Qmin, GenericMinMax.gmin.
  destruct (Qlt_le_dec x 100) as [Hlt|Hle].
  - apply Qgt_alt in Hlt. by rewrite Hlt.
  - destruct (100 ?= x)%Q eqn:E; [done..|].
    apply Qgt_alt in E. lra.
Qed.

Lemma conversation_days_of_returns (msgs : list Message) :
  exists d,
    conversation_days_of msgs = Return d /\
    ((length msgs <= 1)%nat -> d = 0) /\
    (forall newest oldest,
       (1 < length msgs)%nat ->
       head msgs = Some newest -> last msgs = Some oldest ->
       d = dt_date (timestamp newest) - dt_date (timestamp oldest) + 1).
Proof.
  unfold conversation_days_of.
  destruct (decide (1 < length msgs)%nat) as [Hlen|Hlen].
  - destruct msgs as [|newest rest]; [simpl in Hlen; lia|].
    destruct (last (newest :: rest)) as [oldest|] eqn:El;
      [|by apply last_None in El].
    rewrite bool_decide_true by done.
    replace (1 <? Z.of_nat (length (newest :: rest))) with true
      by (symmetry; apply Z.ltb_lt; lia).
    unfold py_last, py_first. rewrite El. cbn.
    eexists; split; [reflexivity|]. split; [simpl in *; lia|].
    by intros ? ? _ [= <-] [= <-].
  - replace (1 <? Z.of_nat (length msgs)) with false
      by (symmetry; apply Z.ltb_ge; lia).
    rewrite andb_false_r. exists 0. split; [done|]. split; [done|]. lia.
Qed.

Lemma average_messages_per_day_returns (total days : Z) :
  exists q,
    average_messages_per_day total days = Return q /\
    (days <= 0 -> q = 0%Q) /\
    (0 < days -> q = round1 (float_div (inject_Z total) (inject_Z days))).
Proof.
  unfold average_messages_per_day, truediv.
  destruct (0 <? days) eqn:E.
  - apply Z.ltb_lt in E.
    replace (days =? 0) with false by (symmetry; apply Z.eqb_neq; lia). cbn.
    eexists; split; [reflexivity|]. split; [lia|done].
  - apply Z.ltb_ge in E. exists 0%Q. split; [done|]. split; [done|lia].
Qed.

(** The profile endpoint answers for every stored character; its fields are
    the defaults or the record's values, the progress of the record, and the
    guarded statistics. *)
Lemma get_character_profile_returns (db : DB) (cid : Z) (character : Character) :
  get_character db cid = Some character ->
  let favorability := get_favorability db cid in
  let msgs := get_conversation_history db cid 1000 in
  exists p,
    get_character_profile db cid = Return p /\
    pf_current_level (cp_favorability p)
      = match favorability with Some f => current_level f | None => 1 end /\
    pf_message_count (cp_favorability p)
      = match favorability with Some f => message_count f | None => 0 end /\
    pf_progress_percentage (cp_favorability p)
      = round1 (favorability_progress favorability).1.1 /\
    pf_next_level_at (cp_favorability p)
      = (favorability_progress favorability).1.2 /\
    ps_total_messages (cp_statistics p) = Z.of_nat (length msgs) /\
    conversation_days_of msgs = Return (ps_conversation_days (cp_statistics p)) /\
    average_messages_per_day (Z.of_nat (length msgs))
        (ps_conversation_days (cp_statistics p))
      = Return (ps_average_messages_per_day (cp_statistics p)).
Proof.
  intros Hc favorability msgs. unfold get_character_profile. rewrite Hc.
  fold favorability msgs.
  destruct (conversation_days_of_returns msgs) as (d & Hd & _).
  destruct (average_messages_per_day_returns (Z.of_nat (length msgs)) d)
    as (q & Hq & _).
  rewrite Hd. cbn.
  destruct (favorability_progress favorability) as [[progress next] level_name].
  rewrite Hq. cbn. eexists; split; [reflexivity|]. by cbn.
Qed.

Lemma latin1_encodable_app (a b : string) :
  latin1_encodable (String.append a b)
  = latin1_encodable a && latin1_encodable b.
Proof.
  induction a as [|c a IH]; [done|].
  change (latin1_encodable (String.append (String c a) b))
    with ((nat_of_ascii c <? 196)%nat && latin1_encodable (String.append a b)).
  rewrite IH. apply andb_assoc.
Qed.

(** The header of the export cannot be encoded, whatever the character, the
    format and the time are: the file name carries four CJK characters. *)
Lemma export_headers_not_encodable (character : Character) (format now : string)
    (content : ExportDocument) :
  Response content (export_headers (export_filename character format now))
  = Raise UnicodeEncodeError.
Proof.
  unfold Response, export_headers, export_filename. cbn [forallb fst snd].
  rewrite !latin1_encodable_app.
  replace (latin1_encodable "_對話記錄_") with false by (vm_compute; reflexivity).
  by rewrite ?andb_false_r, ?andb_false_l, ?andb_false_r.
Qed.

(** The export builds its content for every stored character: the document
    of the requested format, over the whole history. *)
Lemma export_content_returns (db : DB) (cid : Z) (format now : string)
    (character : Character) :
  get_character db cid = Some character ->
  exists days,
    conversation_days_of (get_conversation_history db cid 10000) = Return days /\
    export_content db cid format now
    = Return (export_document (get_favorability db cid)
                (get_conversation_history db cid 10000) days format,
              export_filename character format now).
Proof.
  intros Hc. unfold export_content. rewrite Hc.
  destruct (conversation_days_of_returns (get_conversation_history db cid 10000))
    as (d & Hd & _).
  exists d. split; [done|]. by rewrite Hd.
Qed.

(** What the export answers: 404 for an unknown character and 500 for a
    stored one, whose download cannot be sent. *)
Lemma export_conversation_outcome (db : DB) (cid : Z) (format now : string) :
  export_conversation db cid format now
  = Raise (HTTPException
             match get_character db cid with Some _ => 500 | None => 404 end).
Proof.
  unfold export_conversation.
  destruct (get_character db cid) as [character|] eqn:Hc.
  - destruct (export_content_returns db cid format now character Hc)
      as (days & _ & ->).
    cbn. by rewrite export_headers_not_encodable.
  - unfold export_content. by rewrite Hc.
Qed.

(** X17: the export never sends a download.  It answers 404 for an unknown
    character; for a stored one it builds the content and then fails to
    construct the response, whose [Content-Disposition] header is not latin-1,
    and answers 500, in both formats. *)
Theorem export_never_sends_a_download (db : DB) (cid : Z) (format now : string) :
  http_status (export_conversation db cid format now)
  = match get_character db cid with Some _ => 500 | None => 404 end /\
  (is_Some (get_character db cid) ->
   exists content filename,
     export_content db cid format now = Return (content, filename) /\
     Response content (export_headers filename) = Raise UnicodeEncodeError).
Proof.
  split.
  - rewrite export_conversation_outcome. by destruct (get_character db cid).
  - intros [character Hc].
    destruct (export_content_returns db cid format now character Hc)
      as (days & _ & Hcontent).
    eexists _, _. split; [exact Hcontent|].
    apply export_headers_not_encodable.
Qed.

(** The export of a conversation with a favorability record and messages, in
    text: status 500. *)
Lemma export_of_a_stored_conversation :
  export_conversation chatting_db 1 "txt" "20250101_093000"
  = Raise (HTTPException 500).
Proof. vm_compute. reflexivity. Qed.

(** The analytics endpoint answers for every stored character: with the empty
    object when there is no message, and otherwise with the inclusive span of
    the dates, the guarded average and the favorability values or defaults. *)
Lemma get_analytics_returns (db : DB) (cid : Z) (character : Character) :
  get_character db cid = Some character ->
  let favorability := get_favorability db cid in
  let msgs := get_conversation_history db cid 10000 in
  exists r,
    get_analytics db cid = Return r /\
    match ar_analytics r with
    | None => msgs = []
    | Some a =>
        let days := ao_conversation_days (an_overview a) in
        let avg := ao_avg_messages_per_day (an_overview a) in
        (exists newest oldest,
           head msgs = Some newest /\ last msgs = Some oldest /\
           days = dt_date (timestamp newest) - dt_date (timestamp oldest) + 1) /\
        ao_total_messages (an_overview a) = Z.of_nat (length msgs) /\
        (days <= 0 -> avg = round1 0) /\
        (0 < days ->
         avg = round1 (float_div (inject_Z (Z.of_nat (length msgs))) (inject_Z days))) /\
        af_current_level (an_favorability a)
          = match favorability with Some f => current_level f | None => 1 end /\
        af_message_count (an_favorability a)
          = match favorability with Some f => message_count f | None => 0 end
    end.
Proof.
  intros Hc favorability msgs. unfold get_analytics. rewrite Hc.
  fold favorability msgs.
  destruct msgs as [|newest rest] eqn:Hm.
  - rewrite bool_decide_true by done. cbn. eexists; split; [reflexivity|]. done.
  - rewrite bool_decide_false by done.
    destruct (last (newest :: rest)) as [oldest|] eqn:El;
      [|by apply last_None in El].
    unfold py_last, py_first. rewrite El. cbn -[last length].
    unfold date_diff_days.
    set (days := dt_date (timestamp newest) - dt_date (timestamp oldest) + 1).
    destruct (0 <? days) eqn:E.
    + apply Z.ltb_lt in E. unfold truediv.
      replace (days =? 0) with false by (symmetry; apply Z.eqb_neq; lia).
      cbn -[last length]. eexists; split; [reflexivity|]. cbn -[last length].
      split; [by exists newest, oldest|].
      split; [done|]. split; [lia|]. by split.
    + apply Z.ltb_ge in E.
      cbn -[last length]. eexists; split; [reflexivity|]. cbn -[last length].
      split; [by exists newest, oldest|].
      split; [done|]. split; [done|]. split; [lia|]. by split.
Qed.

(** The character list of the owner holds the character's entry, whose
    favorability is the record's level or 1. *)
Lemma get_user_characters_returns (db : DB) (cid : Z) (character : Character) :
  get_character db cid = Some character ->
  exists r,
    get_user_characters_endpoint db (owner_id character) = Return r /\
    user_character_entry db character ∈ uc_characters r /\
    entry_favorability (user_character_entry db character)
      = match get_favorability db (character_id character) with
        | Some f => current_level f
        | None => 1
        end.
Proof.
  intros Hc. unfold get_user_characters_endpoint. cbn.
  eexists; split; [reflexivity|]. cbn. split; [|done].
  apply list_elem_of_fmap_2. unfold get_user_characters.
  apply list_elem_of_filter. split; [done|].
  apply list_elem_of_fmap. exists (cid, character). split; [done|].
  by apply elem_of_map_to_list.
Qed.

(** C8, as the code has it: for a stored character without a favorability
    record the profile reports level 1 and count 0, the character list
    reports level 1, the analytics report level 1 and count 0 once the
    conversation has a message (and the empty object before), the export
    hands to its response the document of the requested format with level 1
    and, in JSON, count 0, and does not answer 404; the favorability endpoint
    alone answers 404. *)
Theorem missing_record_defaults (db : DB) (cid : Z) (character : Character)
    (format now : string) :
  get_character db cid = Some character ->
  character_id character = cid ->
  get_favorability db cid = None ->
  (exists p,
     get_character_profile db cid = Return p /\
     pf_current_level (cp_favorability p) = 1 /\
     pf_message_count (cp_favorability p) = 0) /\
  (exists doc filename,
     export_content db cid format now = Return (doc, filename) /\
     http_status (export_conversation db cid format now) <> 404 /\
     match doc with
     | ExportJson _ _ fav _ =>
         lower format = "json" /\ ef_level fav = 1 /\ ef_message_count fav = 0
     | ExportTxt _ _ level _ _ => lower format <> "json" /\ level = 1
     end) /\
  (exists r,
     get_analytics db cid = Return r /\
     match ar_analytics r with
     | None => get_conversation_history db cid 10000 = []
     | Some a =>
         af_current_level (an_favorability a) = 1 /\
         af_message_count (an_favorability a) = 0
     end) /\
  (exists r e,
     get_user_characters_endpoint db (owner_id character) = Return r /\
     e ∈ uc_characters r /\
     entry_character_id e = cid /\ entry_favorability e = 1) /\
  http_status (get_favorability_status db cid) = 404.
Proof.
  intros Hc Hid Hf. repeat apply conj.
  - destruct (get_character_profile_returns db cid character Hc)
      as (p & Hp & Hl & Hn & _).
    rewrite Hf in Hl, Hn. by exists p.
  - destruct (export_content_returns db cid format now character Hc)
      as (days & _ & Hexport).
    rewrite Hf in Hexport. eexists _, _. split; [exact Hexport|].
    split.
    + rewrite export_conversation_outcome, Hc. by cbn.
    + unfold export_document.
      destruct (String.eqb (lower format) "json") eqn:E.
      * apply String.eqb_eq in E. by cbn.
      * apply String.eqb_neq in E. by cbn.
  - destruct (get_analytics_returns db cid character Hc) as (r & Hr & Ha).
    exists r. split; [done|]. destruct (ar_analytics r) as [a|]; [|done].
    destruct Ha as (_ & _ & _ & _ & Hl & Hn). by rewrite Hf in Hl, Hn.
  - destruct (get_user_characters_returns db cid character Hc)
      as (r & Hr & Hin & He).
    rewrite Hid, Hf in He. by exists r, (user_character_entry db character).
  - unfold get_favorability_status. by rewrite Hf.
Qed.

(** C8 fails as stated: a character without record and without messages gets
    the empty analytics object, which reports no level and no count. *)
Lemma analytics_without_messages_has_no_level :
  get_character orphan_db 1 = Some yuki /\
  get_favorability orphan_db 1 = None /\
  exists r, get_analytics orphan_db 1 = Return r /\ ar_analytics r = None.
Proof.
  split; [reflexivity|]. split; [reflexivity|].
  eexists. split; [vm_compute; reflexivity|]. reflexivity.
Qed.

(** The progress triple of a record, case by case. *)
Lemma favorability_progress_cases (f : Favorability) :
  (current_level f = 1 ->
   favorability_progress (Some f)
     = (Qmin 100 (float_mul (float_div (inject_Z (message_count f)) 20) 100),
        Some 20, LEVEL_NAME_1)) /\
  (current_level f = 2 ->
   favorability_progress (Some f)
     = (Qmin 100 (float_mul (float_div (inject_Z (message_count f - 20)) 30) 100),
        Some 50, LEVEL_NAME_2)) /\
  (current_level f <> 1 -> current_level f <> 2 ->
   favorability_progress (Some f) = (100%Q, None, LEVEL_NAME_3)).
Proof.
  unfold favorability_progress. repeat split.
  - intros ->. by rewrite <- min100_Qmin.
  - intros ->. by rewrite <- min100_Qmin.
  - intros H1 H2. apply Z.eqb_neq in H1, H2. by rewrite H1, H2.
Qed.

Lemma min100_bounds (x : Q) : (0 <= x)%Q -> (0 <= min100 x /\ min100 x <= 100)%Q.
Proof. intros H. unfold min100. destruct (Qlt_le_dec x 100); lra. Qed.

Lemma min100_le (x : Q) : (min100 x <= 100)%Q.
Proof. unfold min100. destruct (Qlt_le_dec x 100); lra. Qed.

(** Rounding to a float keeps the sign. *)
Lemma binary64_nonneg (q : Q) : (0 <= q)%Q -> (0 <= binary64 q)%Q.
Proof.
  intros H. unfold binary64. destruct (Qeq_bool q 0); [lra|].
  replace (Qle_bool 0 q) with true by (symmetry; by apply Qle_bool_iff).
  cbv zeta. apply Qmult_le_0_compat.
  - change 0%Q with (inject_Z 0). rewrite <- Zle_Qle.
    apply round_half_even_ge. change (inject_Z 0) with 0%Q.
    apply Qmult_le_0_compat; [apply Qabs_nonneg|]. apply Qpower_0_le. lra.
  - apply Qpower_0_le. lra.
Qed.

Lemma float_progress_nonneg (k d : Z) :
  0 <= k -> 0 < d ->
  (0 <= float_mul (float_div (inject_Z k) (inject_Z d)) 100)%Q.
Proof.
  intros Hk Hd. unfold float_mul, float_div.
  apply binary64_nonneg. apply Qmult_le_0_compat; [|lra].
  apply binary64_nonneg. apply Qle_shift_div_l.
  - change 0%Q with (inject_Z 0). by rewrite <- Zlt_Qlt.
  - rewrite Qmult_0_l. change 0%Q with (inject_Z 0). by rewrite <- Zle_Qle.
Qed.

Lemma favorability_progress_le (favorability : option Favorability) :
  ((favorability_progress favorability).1.1 <= 100)%Q.
Proof.
  unfold favorability_progress. destruct favorability as [f|]; [|cbn; lra].
  repeat case_match; cbn; first [apply min100_le | lra].
Qed.

Lemma favorability_progress_bounds (f : Favorability) :
  consistent f ->
  (0 <= (favorability_progress (Some f)).1.1 /\
   (favorability_progress (Some f)).1.1 <= 100)%Q.
Proof.
  intros [Hcount Hlevel]. split; [|apply favorability_progress_le].
  unfold favorability_progress. rewrite Hlevel.
  unfold calculate_level, LEVEL_1_THRESHOLD, LEVEL_2_THRESHOLD.
  destruct (message_count f <? 20) eqn:E1; [|destruct (message_count f <? 50) eqn:E2];
    cbn.
  - apply min100_bounds. by apply (float_progress_nonneg _ 20).
  - apply Z.ltb_ge in E1. apply min100_bounds.
    apply (float_progress_nonneg _ 30); lia.
  - lra.
Qed.

Lemma round1_le_100 (x : Q) : (x <= 100)%Q -> (round1 x <= 100)%Q.
Proof.
  intros H100. unfold round1.
  assert (Hhi : round_half_even (x * 10) <= 1000).
  { apply round_half_even_le. change (inject_Z 1000) with 1000%Q. lra. }
  rewrite Zle_Qle in Hhi. change (inject_Z 1000) with 1000%Q in Hhi.
  q_constants. lra.
Qed.

(** On the counts of a well-formed record the float arithmetic of the
    progress rounds to the same tenth as the exact quotient: at level 1 the
    counts are 0 to 19, at level 2 they are 20 to 49. *)
Lemma progress_to_level_2_exact (n : nat) :
  (n < 20)%nat ->
  round1 (min100 (float_mul (float_div (inject_Z (Z.of_nat n)) 20) 100))
  = round1 (min100 (inject_Z (Z.of_nat n) / 20 * 100)).
Proof.
  intros Hn. do 20 (destruct n as [|n]; [vm_compute; reflexivity|]). lia.
Qed.

Lemma progress_to_level_3_exact (n : nat) :
  (n < 30)%nat ->
  round1 (min100 (float_mul (float_div (inject_Z (Z.of_nat n)) 30) 100))
  = round1 (min100 (inject_Z (Z.of_nat n) / 30 * 100)).
Proof.
  intros Hn. do 30 (destruct n as [|n]; [vm_compute; reflexivity|]). lia.
Qed.

(** C9, as the code has it.  At level 1 the next level is at 20 and the
    progress is [min(100, count / 20 * 100)]; at level 2 the next level is at
    50 and the progress is [min(100, (count - 20) / 30 * 100)]; both are
    computed in floats and reported rounded to one decimal, which for a
    well-formed record is the rounding of the exact value; at level 3 the
    progress is 100 and there is no next level.  The percentage never exceeds
    100, and for a well-formed record it is not negative. *)
Theorem profile_progress_fields (db : DB) (cid : Z) (character : Character)
    (f : Favorability) :
  get_character db cid = Some character ->
  get_favorability db cid = Some f ->
  exists p,
    get_character_profile db cid = Return p /\
    let fav := cp_favorability p in
    (consistent f ->
     (0 <= pf_progress_percentage fav /\ pf_progress_percentage fav <= 100)%Q) /\
    (pf_progress_percentage fav <= 100)%Q /\
    (current_level f = 1 ->
     pf_next_level_at fav = Some 20 /\
     pf_progress_percentage fav
       = round1 (Qmin 100
                   (float_mul (float_div (inject_Z (message_count f)) 20) 100)) /\
     (consistent f ->
      pf_progress_percentage fav
        = round1 (Qmin 100 (inject_Z (message_count f) / 20 * 100)))) /\
    (current_level f = 2 ->
     pf_next_level_at fav = Some 50 /\
     pf_progress_percentage fav
       = round1 (Qmin 100
                   (float_mul (float_div (inject_Z (message_count f - 20)) 30) 100)) /\
     (consistent f ->
      pf_progress_percentage fav
        = round1 (Qmin 100 (inject_Z (message_count f - 20) / 30 * 100)))) /\
    (current_level f = 3 ->
     pf_next_level_at fav = None /\
     (pf_progress_percentage fav == 100)%Q).
Proof.
  intros Hc Hf.
  destruct (get_character_profile_returns db cid character Hc)
    as (p & Hp & _ & _ & Hpp & Hnext & _).
  rewrite Hf in Hpp, Hnext. exists p. split; [done|]. cbn zeta.
  rewrite Hpp, Hnext.
  destruct (favorability_progress_cases f) as (H1 & H2 & H3).
  split; [|split; [|split; [|split]]].
  - intros Hcons. apply round1_bounds; by apply favorability_progress_bounds.
  - apply round1_le_100, favorability_progress_le.
  - intros Hl. rewrite (H1 Hl). split; [done|]. split; [done|].
    intros [Hcount Hlevel]. rewrite Hl in Hlevel. cbn [fst].
    assert (Hlt : message_count f < 20).
    { revert Hlevel. unfold calculate_level, LEVEL_1_THRESHOLD, LEVEL_2_THRESHOLD.
      repeat case_match; lia. }
    rewrite <- !min100_Qmin, <- (Z2Nat.id (message_count f)) by done.
    apply progress_to_level_2_exact. lia.
  - intros Hl. rewrite (H2 Hl). split; [done|]. split; [done|].
    intros [Hcount Hlevel]. rewrite Hl in Hlevel. cbn [fst].
    assert (Hrange : 20 <= message_count f < 50).
    { revert Hlevel. unfold calculate_level, LEVEL_1_THRESHOLD, LEVEL_2_THRESHOLD.
      repeat case_match; lia. }
    rewrite <- !min100_Qmin, <- (Z2Nat.id (message_count f - 20)) by lia.
    apply progress_to_level_3_exact. lia.
  - intros Hl. rewrite H3 by lia. split; [done|]. cbn [fst].
    apply (round1_inject_Z 100).
Qed.

(** C9 fails as stated: the bounds rest on the invariant of the record.  A
    record at level 2 with nothing counted shows a negative percentage. *)
Lemma progress_of_skewed_record :
  (exists f,
     get_favorability skewed_db 1 = Some f /\
     current_level f = 2 /\ message_count f = 0) /\
  exists p,
    get_character_profile skewed_db 1 = Return p /\
    (pf_progress_percentage (cp_favorability p) == - (667 # 10))%Q /\
    (pf_progress_percentage (cp_favorability p) < 0)%Q.
Proof.
  split; [eexists; split; [reflexivity|]; by split|].
  eexists. split; [vm_compute; reflexivity|]. split; reflexivity.
Qed.

(** The average follows the float, not the exact quotient: 3 messages over 20
    days are 0.15 exactly, the float of 3 / 20 is below it, and the average
    reported is 0.1. *)
Lemma average_rounds_the_float :
  exists q,
    average_messages_per_day 3 20 = Return q /\
    (q == 1 # 10)%Q /\
    (round1 (3 / 20) == 2 # 10)%Q.
Proof. eexists. split; [vm_compute; reflexivity|]. split; reflexivity. Qed.

(** C10, as the code has it: the profile reports 0 conversation days for at
    most one message and the inclusive span of the dates otherwise; the
    analytics report the inclusive span as soon as there is a message (1 for
    a single one) and nothing when there is none; both report an average of 0
    whenever the days are not positive and divide only by positive days, so
    both always answer; the average is the float quotient rounded to one
    decimal. *)
Theorem conversation_days_statistics (db : DB) (cid : Z) (character : Character) :
  get_character db cid = Some character ->
  (exists p,
     get_character_profile db cid = Return p /\
     let msgs := get_conversation_history db cid 1000 in
     let days := ps_conversation_days (cp_statistics p) in
     let avg := ps_average_messages_per_day (cp_statistics p) in
     ((length msgs <= 1)%nat -> days = 0) /\
     (forall newest oldest,
        (1 < length msgs)%nat ->
        head msgs = Some newest -> last msgs = Some oldest ->
        days = dt_date (timestamp newest) - dt_date (timestamp oldest) + 1) /\
     (days <= 0 -> avg = 0%Q) /\
     (0 < days ->
      avg = round1 (float_div (inject_Z (Z.of_nat (length msgs))) (inject_Z days)))) /\
  (exists r,
     get_analytics db cid = Return r /\
     let msgs := get_conversation_history db cid 10000 in
     match ar_analytics r with
     | None => msgs = []
     | Some a =>
         let days := ao_conversation_days (an_overview a) in
         let avg := ao_avg_messages_per_day (an_overview a) in
         (exists newest oldest,
            head msgs = Some newest /\ last msgs = Some oldest /\
            days = dt_date (timestamp newest) - dt_date (timestamp oldest) + 1) /\
         (days <= 0 -> (avg == 0)%Q) /\
         (0 < days ->
          avg = round1 (float_div (inject_Z (Z.of_nat (length msgs))) (inject_Z days)))
     end).
Proof.
  intros Hc. split.
  - destruct (get_character_profile_returns db cid character Hc)
      as (p & Hp & _ & _ & _ & _ & _ & Hd & Hq).
    exists p. split; [done|]. cbn zeta.
    destruct (conversation_days_of_returns (get_conversation_history db cid 1000))
      as (d & Hd' & H1 & Hn).
    rewrite Hd in Hd'. injection Hd' as Hd'. rewrite <- Hd' in H1, Hn.
    destruct (average_messages_per_day_returns
                (Z.of_nat (length (get_conversation_history db cid 1000)))
                (ps_conversation_days (cp_statistics p)))
      as (q & Hq' & Hz & Hpos).
    rewrite Hq in Hq'. injection Hq' as Hq'. rewrite <- Hq' in Hz, Hpos.
    done.
  - destruct (get_analytics_returns db cid character Hc) as (r & Hr & Ha).
    exists r. split; [done|]. cbn zeta in *.
    destruct (ar_analytics r) as [a|]; [|done].
    destruct Ha as (Hspan & _ & Hz & Hpos & _).
    split; [done|]. split; [|done].
    intros Hle. rewrite (Hz Hle). reflexivity.
Qed.

(** C10 fails as stated: with a single message in the conversation the
    analytics report one conversation day, not zero. *)
Lemma analytics_single_message_counts_one_day :
  length (conversation_log greeted_db 1) = 1%nat /\
  exists r a,
    get_analytics greeted_db 1 = Return r /\
    ar_analytics r = Some a /\
    ao_conversation_days (an_overview a) = 1.
Proof.
  split; [reflexivity|].
  eexists. eexists. split; [vm_compute; reflexivity|]. split; reflexivity.
Qed.

(** ** The history window *)

Lemma get_conversation_history_all (db : DB) (cid limit : Z) :
  Z.of_nat (length (conversation_log db cid)) <= limit ->
  get_conversation_history db cid limit = reverse (conversation_log db cid).
Proof.
  intros H. unfold get_conversation_history.
  apply take_ge. rewrite length_reverse. lia.
Qed.

Lemma get_conversation_history_short (db : DB) (cid limit : Z) :
  2 <= limit ->
  (length (get_conversation_history db cid limit) <= 1)%nat <->
  (length (conversation_log db cid) <= 1)%nat.
Proof.
  intros H. unfold get_conversation_history.
  rewrite length_take, length_reverse. lia.
Qed.

(** ** A completed exchange *)

(** When the responder answers, the exchange counts once, and the log grows
    by the user's message at the old level and the reply at the new one. *)
Lemma send_message_success (respond : responder) (db : DB) (user_id cid : Z)
    (text answer user_name : string) (now : datetime) (character : Character)
    (f : Favorability) :
  users db !! user_id = Some user_name ->
  get_character db cid = Some character ->
  owner_id character = user_id ->
  get_favorability db cid = Some f ->
  respond character (conversation_log db cid) text = Return answer ->
  exists r,
    (send_message respond db user_id cid text now).2 = Return r /\
    reply r = answer /\
    reply_message_count r = message_count f + 1 /\
    reply_favorability_level r = calculate_level (message_count f + 1) /\
    get_favorability (send_message respond db user_id cid text now).1 cid
      = Some (mk_Favorability (reply_favorability_level r)
                (reply_message_count r) now) /\
    conversation_log (send_message respond db user_id cid text now).1 cid
      = conversation_log db cid
          ++ [mk_Message user_name text now (current_level f);
              mk_Message (name character) answer now (reply_favorability_level r)].
Proof.
  intros Hu Hc Ho Hf Hr. unfold send_message.
  rewrite Hu, Hc, Hf, bool_decide_true by done. rewrite Hr.
  unfold record_message.
  replace (get_favorability (save_message db cid user_name text (current_level f) now) cid)
    with (Some f) by done.
  cbn. eexists; split; [reflexivity|]. cbn.
  split; [done|]. split; [done|]. split; [done|].
  split; [apply lookup_insert_eq|].
  do 2 (unfold conversation_log; cbn; rewrite ?lookup_insert_eq).
  cbn. by rewrite <- app_assoc.
Qed.

(** Whatever the responder does, an exchange never lowers the level of a
    well-formed record. *)
Lemma send_message_level_monotone (respond : responder) (db : DB)
    (user_id cid : Z) (text : string) (now : datetime) (f : Favorability) :
  get_favorability db cid = Some f ->
  consistent f ->
  exists f',
    get_favorability (send_message respond db user_id cid text now).1 cid = Some f' /\
    consistent f' /\
    current_level f <= current_level f'.
Proof.
  intros Hf Hcons.
  assert (Hstay :
    get_favorability (send_message respond db user_id cid text now).1 cid = Some f ->
    exists f',
      get_favorability (send_message respond db user_id cid text now).1 cid = Some f' /\
      consistent f' /\ current_level f <= current_level f').
  { intros H. exists f. split; [done|]. split; [done|lia]. }
  destruct (users db !! user_id) as [user_name|] eqn:Hu;
    [|apply Hstay; unfold send_message; by rewrite Hu].
  destruct (get_character db cid) as [character|] eqn:Hc;
    [|apply Hstay; unfold send_message; by rewrite Hu, Hc].
  destruct (decide (owner_id character = user_id)) as [Ho|Ho];
    [|apply Hstay; unfold send_message;
      by rewrite Hu, Hc, Hf, bool_decide_false by done].
  destruct (respond character (conversation_log db cid) text) as [answer|e] eqn:Hr.
  - clear Hstay.
    destruct (send_message_success respond db user_id cid text answer user_name
                now character f Hu Hc Ho Hf Hr)
      as (r & _ & _ & Hcount & Hlevel & Hf' & _).
    eexists; split; [exact Hf'|]. rewrite Hlevel, Hcount.
    split; [by apply consistent_step|]. cbn.
    destruct Hcons as [_ ->]. apply calculate_level_mono. lia.
  - apply Hstay. unfold send_message.
    rewrite Hu, Hc, Hf, bool_decide_true by done. by rewrite Hr.
Qed.

(** ** The client script *)

Lemma milestoneTexts_keys (n : Z) :
  is_Some (milestoneTexts !! n) <->
  n = 50 \/ n = 100 \/ n = 200 \/ n = 500 \/ n = 1000.
Proof.
  unfold milestoneTexts, list_to_map. cbn [foldr uncurry curry fst snd].
  rewrite !lookup_insert_is_Some.
  pose proof (lookup_empty_is_Some (M := gmap Z) (A := string) n).
  intuition lia.
Qed.

Lemma anniversaryTexts_keys (n : Z) :
  is_Some (anniversaryTexts !! n) <->
  n = 7 \/ n = 30 \/ n = 100 \/ n = 365.
Proof.
  unfold anniversaryTexts, list_to_map. cbn [foldr uncurry curry fst snd].
  rewrite !lookup_insert_is_Some.
  pose proof (lookup_empty_is_Some (M := gmap Z) (A := string) n).
  intuition lia.
Qed.

(** The script shows each notification exactly when the reply carries its
    flag. *)
Lemma sendMessage_notifications_flags (data : Reply) :
  ((exists t, LevelUpNotification t ∈ sendMessage_notifications data) <->
   reply_level_increased data = true) /\
  ((exists t, MilestoneNotification t ∈ sendMessage_notifications data) <->
   reply_milestone_reached data = true) /\
  ((exists t, AnniversaryNotification t ∈ sendMessage_notifications data) <->
   reply_anniversary_reached data = true).
Proof.
  unfold sendMessage_notifications.
  destruct (reply_level_increased data), (reply_milestone_reached data),
    (reply_anniversary_reached data); cbn [app];
    repeat split;
    first [ done
          | by intros _; eexists; repeat constructor
          | intros [t Ht]; exfalso;
            repeat (apply elem_of_cons in Ht as [Ht|Ht]; [discriminate|]);
            by apply elem_of_nil in Ht ].
Qed.

(** ** The properties at work on the sample conversations *)

(** The walk of a fresh conversation: 19 calls leave it at level 1 without
    any flag, the 20th lifts it to level 2, and the 50th lifts it to level 3
    and is the first milestone. *)
Example fresh_conversation_walk :
  let outcomes := (record_messages fresh_db 1 (replicate 50 (day 1))).2 in
  Forall (fun r => exists u, r = Return u /\ new_level u = 1 /\
                     level_increased u = false /\ milestone_reached u = false)
    (take 19 outcomes) /\
  outcomes !! 19%nat
    = Some (Return (mk_FavorabilityUpdate 2 true 20 false None false None)) /\
  outcomes !! 49%nat
    = Some (Return (mk_FavorabilityUpdate 3 true 50 true (Some 50) false None)).
Proof.
  cbv zeta. split; [|split; vm_compute; reflexivity].
  vm_compute take. repeat constructor; eexists; (split; [reflexivity|]); done.
Qed.

Lemma current_level_never_decreases_witness :
  exists f1 f2,
    favorability_after fresh_db 1 (replicate 19 (day 1)) = Some f1 /\
    favorability_after fresh_db 1 (replicate 19 (day 1) ++ [day 2]) = Some f2 /\
    message_count f2 = message_count f1 + Z.of_nat (length [day 2]) /\
    current_level f1 = calculate_level (message_count f1) /\
    current_level f2 = calculate_level (message_count f2) /\
    current_level f1 <= current_level f2.
Proof.
  apply (current_level_never_decreases fresh_db 1 (mk_Favorability 1 0 (day 0))).
  - reflexivity.
  - split; [simpl; lia | reflexivity].
Defined.

Lemma milestone_signal_witness :
  exists u,
    (record_message chatting_db 1 (day 30)).2 = Return u /\
    updated_count u = 50 /\
    milestone_reached u = true /\ milestone_number u = Some 50.
Proof.
  destruct (milestone_signal chatting_db 1 (day 30)
              (mk_Favorability 2 49 (day 3)) eq_refl)
    as (u & Hu & Hcount & Hiff & Hnumber & _).
  simpl in Hcount. exists u. split; [exact Hu|]. split; [exact Hcount|].
  assert (Hreached : milestone_reached u = true) by (apply Hiff; lia).
  split; [exact Hreached|]. rewrite (Hnumber Hreached), Hcount. reflexivity.
Defined.

Lemma anniversary_signal_witness :
  exists u,
    (record_message chatting_db 1 (day 30)).2 = Return u /\
    anniversary_reached u = true /\ anniversary_days u = Some 30.
Proof.
  destruct (anniversary_signal chatting_db 1 (day 30)
              (mk_Favorability 2 49 (day 3))
              (mk_Message "Yuki" "你好" (day 0) 1) eq_refl eq_refl)
    as (u & Hu & Hiff & Hdays & _).
  simpl in Hiff, Hdays. exists u. split; [exact Hu|].
  assert (Hreached : anniversary_reached u = true) by (apply Hiff; lia).
  split; [exact Hreached|]. exact (Hdays Hreached).
Defined.

Lemma level_increased_at_crossings_witness :
  exists u,
    (record_messages fresh_db 1 (replicate 20 (day 1))).2 !! 19%nat
      = Some (Return u) /\
    updated_count u = 20 /\ level_increased u = true.
Proof.
  destruct (level_increased_at_crossings fresh_db 1
              (mk_Favorability 1 0 (day 0)) (replicate 20 (day 1)) 19 (day 1)
              eq_refl eq_refl)
    as (before & u & _ & Hu & Hcount & _ & Hiff).
  simpl in Hcount. exists u. split; [exact Hu|]. split; [exact Hcount|].
  apply Hiff; [split; [simpl; lia | reflexivity] | lia].
Defined.

Lemma missing_record_not_found_witness :
  record_message orphan_db 1 (day 3) = (orphan_db, Raise (ManagerError NotFound)) /\
  http_status (get_favorability_status orphan_db 1) = 404 /\
  send_message_v2 answering orphan_db (mk_SendMessageRequest 7 1 "hi") (day 3)
    = (orphan_db, Raise (HTTPException 500)).
Proof.
  destruct (missing_record_not_found answering orphan_db
              (mk_SendMessageRequest 7 1 "hi") (day 3) eq_refl)
    as (Hrecord & _ & _ & Hstatus & Hsend).
  split; [exact Hrecord|]. split; [exact Hstatus | exact Hsend].
Defined.

Lemma failed_responder_keeps_state_witness :
  let outcome := send_message unreachable chatting_db 7 1 "hi" (day 4) in
  outcome.2 = Raise (ManagerError UpstreamUnavailable) /\
  get_favorability outcome.1 1 = Some (mk_Favorability 2 49 (day 3)) /\
  length (conversation_log outcome.1 1) = 3%nat.
Proof.
  destruct (failed_responder_keeps_state unreachable chatting_db
              (mk_SendMessageRequest 7 1 "hi") (day 4) "Dave" yuki
              (mk_Favorability 2 49 (day 3)) (ManagerError UpstreamUnavailable)
              eq_refl eq_refl eq_refl eq_refl eq_refl)
    as (Hfail & _ & Hrecord & Hlog & _).
  split; [exact Hfail|]. split; [exact Hrecord|].
  simpl in Hlog. cbv zeta. simpl. rewrite Hlog. reflexivity.
Defined.

Lemma missing_record_defaults_witness :
  (exists p,
     get_character_profile orphan_greeted_db 1 = Return p /\
     pf_current_level (cp_favorability p) = 1 /\
     pf_message_count (cp_favorability p) = 0) /\
  http_status (export_conversation orphan_greeted_db 1 "json" "20250101_093000")
    <> 404 /\
  http_status (get_favorability_status orphan_greeted_db 1) = 404.
Proof.
  destruct (missing_record_defaults orphan_greeted_db 1 yuki "json"
              "20250101_093000" eq_refl eq_refl eq_refl)
    as (Hprofile & (doc & filename & _ & Hexport & _) & _ & _ & Hstatus).
  split; [exact Hprofile|]. split; [exact Hexport | exact Hstatus].
Defined.

Lemma profile_progress_fields_witness :
  exists p,
    get_character_profile chatting_db 1 = Return p /\
    pf_next_level_at (cp_favorability p) = Some 50 /\
    (0 <= pf_progress_percentage (cp_favorability p) /\
     pf_progress_percentage (cp_favorability p) <= 100)%Q.
Proof.
  destruct (profile_progress_fields chatting_db 1 yuki
              (mk_Favorability 2 49 (day 3)) eq_refl eq_refl)
    as (p & Hp & Hbounds & _ & _ & Hlevel2 & _).
  exists p. split; [exact Hp|]. split.
  - apply (Hlevel2 eq_refl).
  - apply Hbounds. split; [simpl; lia | reflexivity].
Defined.

Lemma conversation_days_statistics_witness :
  exists p,
    get_character_profile chatting_db 1 = Return p /\
    ps_conversation_days (cp_statistics p) = 4.
Proof.
  destruct (conversation_days_statistics chatting_db 1 yuki eq_refl)
    as [(p & Hp & _ & Hspan & _) _].
  exists p. split; [exact Hp|].
  apply (Hspan (mk_Message "Dave" "hi" (day 3) 2)
               (mk_Message "Yuki" "你好" (day 0) 1)).
  - vm_compute. lia.
  - reflexivity.
  - reflexivity.
Defined.

(** ** Counting the messages of the analytics *)

Lemma counter_get_incr (d : counter) (key k : Z) :
  counter_get (counter_incr d key) k
  = counter_get d k + (if key =? k then 1 else 0).
Proof.
  induction d as [|[k' v] rest IH]; simpl.
  - destruct (key =? k); lia.
  - destruct (k' =? key) eqn:E; simpl.
    + apply Z.eqb_eq in E as ->. destruct (key =? k); lia.
    + destruct (k' =? k) eqn:E'; [|exact IH].
      apply Z.eqb_eq in E' as ->. rewrite Z.eqb_sym, E. lia.
Qed.

Lemma counter_incr_keys (d : counter) (key : Z) :
  (counter_incr d key).*1 = if bool_decide (key ∈ d.*1) then d.*1 else d.*1 ++ [key].
Proof.
  induction d as [|[k' v] rest IH].
  - by rewrite bool_decide_false by set_solver.
  - cbn [counter_incr]. destruct (k' =? key) eqn:E; rewrite !fmap_cons; cbn [fst].
    + apply Z.eqb_eq in E as ->. by rewrite bool_decide_true by set_solver.
    + apply Z.eqb_neq in E. rewrite IH.
      destruct (decide (key ∈ rest.*1)) as [Hin|Hin].
      * by rewrite !bool_decide_true by set_solver.
      * by rewrite !bool_decide_false by set_solver.
Qed.

Lemma counter_incr_NoDup (d : counter) (key : Z) :
  NoDup d.*1 -> NoDup (counter_incr d key).*1.
Proof.
  intros H. rewrite counter_incr_keys. case_bool_decide as Hin; [done|].
  apply NoDup_app. split; [done|]. split; [|apply NoDup_singleton].
  intros x Hx ->%list_elem_of_singleton. done.
Qed.

Lemma counter_get_elem_of (d : counter) (k v : Z) :
  NoDup d.*1 -> (k, v) ∈ d -> counter_get d k = v.
Proof.
  induction d as [|[k' v'] rest IH]; simpl; intros Hnd Hin.
  - by apply elem_of_nil in Hin.
  - apply NoDup_cons in Hnd as [Hk Hnd].
    apply elem_of_cons in Hin as [[= <- <-]|Hin].
    + by rewrite Z.eqb_refl.
    + destruct (k' =? k) eqn:E; [|by apply IH].
      apply Z.eqb_eq in E as ->. exfalso. apply Hk.
      apply list_elem_of_fmap. by exists (k, v).
Qed.

Lemma count_messages_snoc (key : Message -> Z) (messages : list Message)
    (msg : Message) :
  count_messages key (messages ++ [msg])
  = counter_incr (count_messages key messages) (key msg).
Proof. unfold count_messages. by rewrite foldl_app. Qed.

Lemma occurrences_snoc (key : Message -> Z) (messages : list Message)
    (msg : Message) (k : Z) :
  occurrences key (messages ++ [msg]) k
  = occurrences key messages k + (if key msg =? k then 1 else 0).
Proof.
  unfold occurrences. rewrite filter_app, length_app, Nat2Z.inj_add. f_equal.
  destruct (key msg =? k) eqn:E.
  - apply Z.eqb_eq in E. by rewrite filter_cons_True.
  - apply Z.eqb_neq in E. by rewrite filter_cons_False.
Qed.

(** The counter of a loop holds, for every key, the number of messages that
    carry it. *)
Lemma counter_get_count_messages (key : Message -> Z) (messages : list Message)
    (k : Z) :
  counter_get (count_messages key messages) k = occurrences key messages k.
Proof.
  induction messages as [|msg messages IH] using rev_ind; [done|].
  by rewrite count_messages_snoc, counter_get_incr, occurrences_snoc, IH.
Qed.

Lemma count_messages_NoDup (key : Message -> Z) (messages : list Message) :
  NoDup (count_messages key messages).*1.
Proof.
  induction messages as [|msg messages IH] using rev_ind; [constructor|].
  rewrite count_messages_snoc. by apply counter_incr_NoDup.
Qed.

Lemma count_messages_keys (key : Message -> Z) (messages : list Message) (k : Z) :
  k ∈ (count_messages key messages).*1 <-> k ∈ key <$> messages.
Proof.
  induction messages as [|msg messages IH] using rev_ind; [done|].
  rewrite count_messages_snoc, counter_incr_keys, fmap_app. simpl.
  case_bool_decide as Hin; set_solver.
Qed.

Lemma occurrences_pos (key : Message -> Z) (messages : list Message) (k : Z) :
  k ∈ key <$> messages <-> 1 <= occurrences key messages k.
Proof.
  unfold occurrences. rewrite list_elem_of_fmap. split.
  - intros (msg & -> & Hin).
    assert (Hf : msg ∈ filter (fun m => key m = key msg) messages)
      by (by apply list_elem_of_filter).
    destruct (filter _ messages); [by apply elem_of_nil in Hf|simpl; lia].
  - intros Hlen.
    destruct (filter (fun m => key m = k) messages) as [|msg rest] eqn:E;
      [simpl in Hlen; lia|].
    assert (Hf : msg ∈ filter (fun m => key m = k) messages)
      by (rewrite E; left).
    apply list_elem_of_filter in Hf as [Hk Hin]. by exists msg.
Qed.

(** ** The hourly and daily trends *)

Lemma dt_hour_range (msg : Message) :
  valid_time msg -> 0 <= dt_hour (timestamp msg) < 24.
Proof.
  unfold valid_time, dt_hour. intros H. split.
  - apply Z.div_pos; lia.
  - apply Z.div_lt_upper_bound; lia.
Qed.

Lemma filter_key_cons (key : Message -> Z) (messages : list Message)
    (k : Z) (keys : list Z) :
  k ∉ keys ->
  length (filter (fun msg => key msg ∈ k :: keys) messages)
  = (length (filter (fun msg => key msg = k) messages)
     + length (filter (fun msg => key msg ∈ keys) messages))%nat.
Proof.
  intros Hk. induction messages as [|msg messages IH]; [done|].
  destruct (decide (key msg = k)) as [Heq|Hne].
  - rewrite (filter_cons_True (fun m => key m = k)) by done.
    rewrite (filter_cons_True (fun m => key m ∈ k :: keys)) by (rewrite Heq; left).
    rewrite (filter_cons_False (fun m => key m ∈ keys)) by (by rewrite Heq).
    simpl. by rewrite IH.
  - rewrite (filter_cons_False (fun m => key m = k)) by done.
    destruct (decide (key msg ∈ keys)) as [Hin|Hnin].
    + rewrite (filter_cons_True (fun m => key m ∈ k :: keys)) by (by right).
      rewrite (filter_cons_True (fun m => key m ∈ keys)) by done.
      simpl. rewrite IH. lia.
    + rewrite (filter_cons_False (fun m => key m ∈ k :: keys))
        by (intros [?|?]%elem_of_cons; done).
      by rewrite (filter_cons_False (fun m => key m ∈ keys)) by done.
Qed.

(** The counts of the keys of a duplicate-free list add up to the number of
    messages whose key is in the list. *)
Lemma occurrences_sum (key : Message -> Z) (messages : list Message)
    (keys : list Z) :
  NoDup keys ->
  foldr Z.add 0 (occurrences key messages <$> keys)
  = Z.of_nat (length (filter (fun msg => key msg ∈ keys) messages)).
Proof.
  intros Hnd. induction Hnd as [|k keys Hk Hnd IH].
  - cbn [fmap list_fmap foldr].
    induction messages as [|msg messages IHm]; [done|].
    rewrite filter_cons_False; [done|]. apply not_elem_of_nil.
  - rewrite fmap_cons. cbn [foldr]. rewrite IH, filter_key_cons by done.
    unfold occurrences. lia.
Qed.

(** X2: the hourly list has one entry per hour of the day, in order, each
    with the number of messages sent in that hour under [count]; for times of
    day within the day these 24 counts add up to the number of messages. *)
Theorem hourly_counts_cover_messages (messages : list Message) :
  Forall valid_time messages ->
  length (hourly_counts (messages_by_hour messages)) = 24%nat /\
  (forall h, 0 <= h < 24 ->
     hourly_counts (messages_by_hour messages) !! Z.to_nat h
     = Some {[ "hour" := JInt h;
               "count" := JInt (occurrences (fun msg => dt_hour (timestamp msg))
                                  messages h) ]}) /\
  foldr Z.add 0
    (occurrences (fun msg => dt_hour (timestamp msg)) messages <$> seqZ 0 24)
  = Z.of_nat (length messages).
Proof.
  intros Hvalid. unfold hourly_counts. split; [|split].
  - by rewrite length_fmap, length_seqZ.
  - intros h Hh. rewrite list_lookup_fmap.
    rewrite (lookup_seqZ_lt 0 24 (Z.to_nat h)) by lia. cbn [fmap option_fmap option_map].
    unfold messages_by_hour. rewrite counter_get_count_messages.
    by replace (0 + Z.of_nat (Z.to_nat h)) with h by lia.
  - rewrite occurrences_sum by apply NoDup_seqZ. do 2 f_equal.
    induction Hvalid as [|msg rest Hmsg Hrest IH]; [done|].
    rewrite filter_cons_True; [by rewrite IH|].
    apply elem_of_seqZ. pose proof (dt_hour_range msg Hmsg). lia.
Qed.

(** The counts of the 30 days of the trend add up to the number of messages
    dated within those days. *)
Lemma daily_window_sum (today : Z) (messages : list Message) :
  foldr Z.add 0
    ((fun i => occurrences (fun msg => dt_date (timestamp msg)) messages
                 (today - 29 + i)) <$> seqZ 0 30)
  = Z.of_nat (length (filter (fun msg => today - 29 <= dt_date (timestamp msg) <= today)
                        messages)).
Proof.
  rewrite (list_fmap_compose (fun i => today - 29 + i)
             (occurrences (fun msg => dt_date (timestamp msg)) messages)).
  rewrite occurrences_sum.
  - do 2 f_equal. apply list_filter_iff. intros msg.
    rewrite list_elem_of_fmap. split.
    + intros (i & -> & Hi%elem_of_seqZ). lia.
    + intros Hrange. exists (dt_date (timestamp msg) - (today - 29)).
      split; [lia|]. apply elem_of_seqZ. lia.
  - apply NoDup_fmap_2; [|apply NoDup_seqZ]. intros i j Heq. lia.
Qed.

(** X4: the daily trend has 30 entries, one per day from 29 days before the
    request up to its day, in that order, each with the number of messages of
    that day under [message_count]; these numbers add up to the number of
    messages dated within the 30 days. *)
Theorem daily_trends_entries (today : Z) (messages : list Message) :
  length (daily_trends today (messages_by_day messages)) = 30%nat /\
  (forall i, 0 <= i < 30 ->
     daily_trends today (messages_by_day messages) !! Z.to_nat i
     = Some {[ "date" := JDate (today - 29 + i);
               "message_count" :=
                 JInt (occurrences (fun msg => dt_date (timestamp msg)) messages
                         (today - 29 + i)) ]}) /\
  foldr Z.add 0
    ((fun i => occurrences (fun msg => dt_date (timestamp msg)) messages
                 (today - 29 + i)) <$> seqZ 0 30)
  = Z.of_nat (length (filter (fun msg => today - 29 <= dt_date (timestamp msg) <= today)
                        messages)).
Proof.
  unfold daily_trends. split; [|split].
  - by rewrite length_fmap, length_reverse, length_seqZ.
  - intros i Hi. rewrite list_lookup_fmap.
    assert (Hrev : reverse (seqZ 0 30) !! Z.to_nat i = Some (29 - i)).
    { rewrite reverse_lookup by (rewrite length_seqZ; lia).
      rewrite length_seqZ, lookup_seqZ_lt by lia. f_equal. lia. }
    rewrite Hrev. cbn [fmap option_fmap option_map].
    unfold messages_by_day. rewrite counter_get_count_messages.
    by replace (today - (29 - i)) with (today - 29 + i) by lia.
  - apply daily_window_sum.
Qed.

(** ** The most active hours *)

Lemma insert_by_count_Permutation (x : Z * Z) (sorted : list (Z * Z)) :
  insert_by_count x sorted ≡ₚ x :: sorted.
Proof.
  induction sorted as [|y rest IH]; simpl; [done|].
  case_match; [done|]. rewrite IH. apply Permutation_swap.
Qed.

Lemma sorted_by_count_Permutation (items : list (Z * Z)) :
  sorted_by_count items ≡ₚ items.
Proof.
  induction items as [|x rest IH]; simpl; [done|].
  by rewrite insert_by_count_Permutation, IH.
Qed.

Lemma insert_by_count_sorted (x : Z * Z) (sorted : list (Z * Z)) :
  StronglySorted (fun a b => b.2 <= a.2) sorted ->
  StronglySorted (fun a b => b.2 <= a.2) (insert_by_count x sorted).
Proof.
  induction 1 as [|y rest Hs IH Hy]; simpl.
  - repeat constructor.
  - destruct (y.2 <=? x.2) eqn:E.
    + apply Z.leb_le in E. constructor; [by constructor|].
      constructor; [done|]. eapply Forall_impl; [exact Hy|]. simpl. lia.
    + apply Z.leb_gt in E. constructor; [done|].
      rewrite insert_by_count_Permutation. constructor; [lia|done].
Qed.

Lemma sorted_by_count_sorted (items : list (Z * Z)) :
  StronglySorted (fun a b => b.2 <= a.2) (sorted_by_count items).
Proof.
  induction items as [|x rest IH]; simpl; [constructor|].
  by apply insert_by_count_sorted.
Qed.

(** The sort is stable: among items of equal count the earlier stays first. *)
Lemma insert_by_count_head (x : Z * Z) (sorted : list (Z * Z)) :
  Forall (fun y => y.2 <= x.2) sorted -> insert_by_count x sorted = x :: sorted.
Proof.
  destruct 1 as [|y rest Hy Hrest]; simpl; [done|].
  by rewrite (proj2 (Z.leb_le _ _) Hy).
Qed.

(** X3: the most active hours are at most five different hours, listed by
    decreasing number of messages; each carries the number of messages sent
    in that hour, which is at least one, and no hour left out has more
    messages than a listed one. *)
Theorem top_hours_are_the_busiest (messages : list Message) :
  let count := occurrences (fun msg => dt_hour (timestamp msg)) messages in
  let top := top_hours (messages_by_hour messages) in
  (length top <= 5)%nat /\
  NoDup top.*1 /\
  StronglySorted (fun a b => b.2 <= a.2) top /\
  (forall hour n, (hour, n) ∈ top -> n = count hour /\ 1 <= n) /\
  (forall hour, 1 <= count hour -> hour ∉ top.*1 ->
     length top = 5%nat /\ Forall (fun item => count hour <= item.2) top).
Proof.
  intros count top. subst top. unfold top_hours, messages_by_hour.
  set (key := fun msg => dt_hour (timestamp msg)) in *.
  set (items := count_messages key messages).
  pose proof (sorted_by_count_Permutation items) as Hperm.
  pose proof (sorted_by_count_sorted items) as Hsorted.
  pose proof (count_messages_NoDup key messages) as Hnd. fold items in Hnd.
  assert (Hnd' : NoDup (sorted_by_count items).*1) by (by rewrite Hperm).
  assert (Hitem : forall hour n, (hour, n) ∈ items -> n = count hour /\ 1 <= n).
  { intros hour n Hin.
    assert (n = count hour) as ->.
    { rewrite <- (counter_get_elem_of items hour n Hnd Hin).
      apply counter_get_count_messages. }
    split; [done|]. apply occurrences_pos, count_messages_keys.
    apply list_elem_of_fmap. by exists (hour, count hour). }
  rewrite <- (take_drop 5 (sorted_by_count items)) in Hsorted, Hnd'.
  split; [rewrite length_take; lia|].
  split; [rewrite fmap_app in Hnd'; by apply NoDup_app in Hnd' as [? _]|].
  split; [by apply StronglySorted_app_1_l in Hsorted|].
  split.
  - intros hour n Hin. apply Hitem.
    rewrite <- Hperm, <- (take_drop 5 (sorted_by_count items)).
    apply elem_of_app. by left.
  - intros hour Hcount Hout.
    assert (Hin : (hour, count hour) ∈ sorted_by_count items).
    { rewrite Hperm. apply occurrences_pos, count_messages_keys in Hcount.
      apply list_elem_of_fmap in Hcount as ([h n] & -> & Hin).
      by destruct (Hitem _ _ Hin) as [-> _]. }
    rewrite <- (take_drop 5 (sorted_by_count items)) in Hin.
    apply elem_of_app in Hin as [Hin|Hin].
    { exfalso. apply Hout. apply list_elem_of_fmap. by exists (hour, count hour). }
    split.
    + rewrite length_take. apply Nat.min_l.
      destruct (decide (5 <= length (sorted_by_count items))%nat); [done|].
      rewrite drop_ge in Hin by lia. by apply elem_of_nil in Hin.
    + apply Forall_forall. intros item Hitem'.
      by apply (StronglySorted_app_1_elem_of _ _ _ item (hour, count hour) Hsorted).
Qed.

(** ** The charts of the analytics page *)

Lemma fmap_fmap_const {A B C} (f : A -> B) (g : B -> C) (c : C) (l : list A) :
  (forall x, g (f x) = c) -> g <$> (f <$> l) = replicate (length l) c.
Proof.
  intros H. induction l as [|x l IH]; [done|].
  rewrite !fmap_cons, H, IH. done.
Qed.

(** X7: the page takes the data points of the daily chart and the counts of
    the active-hour cards from the key [count]; the entries of the daily
    trend and of the most active hours carry their numbers under
    [message_count], so all 30 daily points and every card count are
    undefined, while the hourly chart, whose entries do carry [count], gets
    the 24 hourly numbers. *)
Theorem charts_read_the_count_key (today : Z) (messages : list Message) :
  let trends := analytics_trends today messages in
  (displayDailyTrendChart (at_daily trends)).2 = replicate 30 None /\
  (forall cards,
     displayActiveHours (at_most_active_hours trends) = Some cards ->
     cards = (fun item => (Some (JInt item.1), None))
               <$> top_hours (messages_by_hour messages)) /\
  (displayHourlyActivityChart (at_messages_by_hour trends)).2
  = (fun h => Some (JInt (occurrences (fun msg => dt_hour (timestamp msg))
                            messages h)))
      <$> seqZ 0 24.
Proof.
  cbn zeta. unfold analytics_trends. cbn [at_daily at_most_active_hours
    at_messages_by_hour]. split; [|split].
  - unfold displayDailyTrendChart, daily_trends. cbn [snd].
    rewrite (fmap_fmap_const _ (js_get "count") None).
    { by rewrite length_reverse, length_seqZ. }
    intros i. unfold js_get. rewrite lookup_insert_ne by done.
    by apply lookup_singleton_ne.
  - unfold displayActiveHours, most_active_hours.
    case_bool_decide; [done|]. intros cards [= <-].
    rewrite <- list_fmap_compose. apply list_fmap_ext. intros _ item _.
    unfold compose, js_get. rewrite lookup_insert_eq.
    rewrite !lookup_insert_ne by done.
    by rewrite lookup_singleton_ne by done.
  - unfold displayHourlyActivityChart, hourly_counts. cbn [snd].
    rewrite <- list_fmap_compose. apply list_fmap_ext. intros _ h _.
    unfold compose, js_get. rewrite lookup_insert_ne by done.
    rewrite lookup_singleton_eq. unfold messages_by_hour.
    by rewrite counter_get_count_messages.
Qed.

(** ** The longest streak *)

Lemma sorted_set_elem_of (xs : list Z) (x : Z) : x ∈ sorted_set xs <-> x ∈ xs.
Proof.
  unfold sorted_set. by rewrite merge_sort_Permutation, elem_of_remove_dups.
Qed.

Lemma StronglySorted_le_lt (l : list Z) :
  StronglySorted Z.le l -> NoDup l -> StronglySorted Z.lt l.
Proof.
  induction 1 as [|x l Hs IH Hx]; intros Hnd; [constructor|].
  apply NoDup_cons in Hnd as [Hin Hnd]. constructor; [by apply IH|].
  rewrite Forall_forall in Hx |- *. intros y Hy.
  specialize (Hx y Hy). assert (x <> y) by (by intros ->). lia.
Qed.

Lemma sorted_set_sorted (xs : list Z) : StronglySorted Z.lt (sorted_set xs).
Proof.
  apply StronglySorted_le_lt.
  - apply StronglySorted_merge_sort; apply _.
  - unfold sorted_set. rewrite merge_sort_Permutation. apply NoDup_remove_dups.
Qed.

(** The loop, entered with the dates seen so far: [previous] is the latest
    of them, [current] the length of the run of consecutive days that ends at
    it, and [longest] the length of the longest run among them.  It returns
    the length of the longest run among all the dates. *)
Lemma streak_loop_spec (dates : list Z) :
  forall (previous current longest : Z) (seen : list Z),
    StronglySorted Z.lt (previous :: dates) ->
    (forall x, x ∈ seen -> x <= previous) ->
    previous ∈ seen ->
    1 <= current <= longest ->
    (forall k, 0 <= k < current -> previous - k ∈ seen) ->
    previous - current ∉ seen ->
    (exists d, forall k, 0 <= k < longest -> d + k ∈ seen) ->
    (forall d n, (forall k, 0 <= k < n -> d + k ∈ seen) -> n <= longest) ->
    let r := streak_loop previous current longest dates in
    longest <= r /\
    (exists d, forall k, 0 <= k < r -> d + k ∈ seen ++ dates) /\
    (forall d n, (forall k, 0 <= k < n -> d + k ∈ seen ++ dates) -> n <= r).
Proof.
  induction dates as [|date rest IH];
    intros previous current longest seen Hsorted Hmax Hprev Hcur Hrun Hstop
      [d0 Hexists] Hlongest; cbn [streak_loop].
  - rewrite app_nil_r. split; [lia|]. split; [by exists d0 | done].
  - apply StronglySorted_cons in Hsorted as [Hlt Hsorted].
    apply Forall_cons in Hlt as [Hlt _].
    assert (Hmax' : forall x, x ∈ seen ++ [date] -> x <= date).
    { intros x [Hx| Heq%list_elem_of_singleton]%elem_of_app; [|lia].
      specialize (Hmax x Hx). lia. }
    assert (Hdate : date ∈ seen ++ [date]) by (apply elem_of_app; right; left).
    assert (Hend : forall d n,
               (forall k, 0 <= k < n -> d + k ∈ seen ++ [date]) ->
               0 <= date - d < n -> d = date - (n - 1)).
    { intros d n Hall Hk. specialize (Hall (n - 1) ltac:(lia)).
      apply Hmax' in Hall. lia. }
    assert (Hold : forall d n,
               (forall k, 0 <= k < n -> d + k ∈ seen ++ [date]) ->
               ~ 0 <= date - d < n -> n <= longest).
    { intros d n Hall Hk. apply (Hlongest d). intros k Hkn.
      specialize (Hall k Hkn).
      apply elem_of_app in Hall as [Hin| Heq%list_elem_of_singleton]; [done|lia]. }
    rewrite (cons_middle date seen rest), app_assoc.
    destruct (date - previous =? 1) eqn:E.
    + apply Z.eqb_eq in E.
      destruct (IH date (current + 1) (Z.max longest (current + 1))
                  (seen ++ [date])) as (Hr & Hex & Hall); try done; try lia.
      * intros k Hk. apply elem_of_app.
        destruct (decide (k = 0)) as [->|Hk0]; [right; rewrite Z.sub_0_r; left|].
        left. replace (date - k) with (previous - (k - 1)) by lia.
        apply Hrun. lia.
      * intros [Hin| Heq%list_elem_of_singleton]%elem_of_app; [|lia].
        apply Hstop. by replace (previous - current) with (date - (current + 1)) by lia.
      * destruct (decide (current + 1 <= longest)) as [Hle|Hgt].
        -- exists d0. intros k Hk. apply elem_of_app. left. apply Hexists. lia.
        -- exists (date - current). intros k Hk. apply elem_of_app.
           destruct (decide (k = current)) as [->|Hkc].
           ++ right. replace (date - current + current) with date by lia. left.
           ++ left. replace (date - current + k) with (previous - (current - 1 - k)) by lia.
              apply Hrun. lia.
      * intros d n Hn.
        destruct (decide (0 <= date - d < n)) as [Hk|Hk]; [|specialize (Hold d n Hn Hk); lia].
        pose proof (Hend d n Hn Hk) as ->.
        destruct (decide (n <= current + 1)) as [|Hbig]; [lia|]. exfalso.
        specialize (Hn (n - 1 - (current + 1)) ltac:(lia)).
        replace (date - (n - 1) + (n - 1 - (current + 1)))
          with (previous - current) in Hn by lia.
        apply elem_of_app in Hn as [Hin| Heq%list_elem_of_singleton]; [done|lia].
      * split; [lia|]. split; [exact Hex | exact Hall].
    + apply Z.eqb_neq in E.
      destruct (IH date 1 longest (seen ++ [date]))
        as (Hr & Hex & Hall); try done; try lia.
      * intros k Hk. replace k with 0 by lia. by rewrite Z.sub_0_r.
      * intros [Hin| Heq%list_elem_of_singleton]%elem_of_app; [|lia].
        specialize (Hmax _ Hin). lia.
      * exists d0. intros k Hk. apply elem_of_app. left. by apply Hexists.
      * intros d n Hn.
        destruct (decide (0 <= date - d < n)) as [Hk|Hk]; [|by apply (Hold d n)].
        pose proof (Hend d n Hn Hk) as ->.
        destruct (decide (n <= 1)) as [|Hbig]; [lia|]. exfalso.
        specialize (Hn (n - 2) ltac:(lia)).
        replace (date - (n - 1) + (n - 2)) with (date - 1) in Hn by lia.
        apply elem_of_app in Hn as [Hin| Heq%list_elem_of_singleton]; [|lia].
        specialize (Hmax _ Hin). lia.
Qed.

(** The loop run on the sorted dates of a history with at least one
    message: its result, measured on the sorted dates. *)
Lemma longest_streak_on_sorted_dates (messages : list Message) :
  messages <> [] ->
  let dates := sorted_set (message_dates messages) in
  let s := longest_streak messages in
  1 <= s /\
  (exists d, forall k, 0 <= k < s -> d + k ∈ dates) /\
  (forall d n, (forall k, 0 <= k < n -> d + k ∈ dates) -> n <= s).
Proof.
  intros Hne. cbn zeta. unfold longest_streak.
  fold (message_dates messages).
  pose proof (sorted_set_sorted (message_dates messages)) as Hsorted.
  pose proof (sorted_set_elem_of (message_dates messages)) as Hin.
  destruct (sorted_set (message_dates messages)) as [|first rest] eqn:E.
  - destruct messages as [|msg messages]; [done|]. exfalso.
    apply (elem_of_nil (dt_date (timestamp msg))), Hin. left.
  - destruct (streak_loop_spec rest first 1 1 [first]) as (Hr & Hex & Hall).
    + exact Hsorted.
    + by intros x ->%list_elem_of_singleton.
    + left.
    + lia.
    + intros k Hk. replace k with 0 by lia. rewrite Z.sub_0_r. left.
    + intros Heq%list_elem_of_singleton. lia.
    + exists first. intros k Hk. replace k with 0 by lia. rewrite Z.add_0_r. left.
    + intros d n Hn. destruct (decide (n <= 1)) as [|Hbig]; [done|]. exfalso.
      pose proof (Hn 0 ltac:(lia)) as H0%list_elem_of_singleton.
      pose proof (Hn 1 ltac:(lia)) as H1%list_elem_of_singleton. lia.
    + split; [lia|]. split; [exact Hex | exact Hall].
Qed.

(** X5: for a history with at least one message the longest streak is the
    length of a longest run of consecutive days that all have a message:
    there is such a run of that length, and none is longer. *)
Theorem longest_streak_is_longest_run (messages : list Message) :
  messages <> [] ->
  let s := longest_streak messages in
  1 <= s /\
  (exists d, streak_from messages d s) /\
  (forall d n, streak_from messages d n -> n <= s).
Proof.
  intros Hne. cbn zeta. unfold streak_from.
  destruct (longest_streak_on_sorted_dates messages Hne) as (H1 & [d Hrun] & Hmax).
  split; [exact H1|]. split.
  - exists d. intros k Hk. apply sorted_set_elem_of. by apply Hrun.
  - intros d' n Hn. apply (Hmax d'). intros k Hk.
    apply sorted_set_elem_of. by apply Hn.
Qed.

Lemma newest_first_bounds (messages : list Message) (newest oldest msg : Message) :
  newest_first messages ->
  head messages = Some newest -> last messages = Some oldest ->
  msg ∈ messages ->
  dt_date (timestamp oldest) <= dt_date (timestamp msg) <= dt_date (timestamp newest).
Proof.
  unfold newest_first. intros Hsorted Hhead Hlast Hin. split.
  - clear Hhead newest. induction Hsorted as [|x l Hs IH Hx]; [done|].
    destruct l as [|y l'].
    + injection Hlast as <-. by apply list_elem_of_singleton in Hin as ->.
    + change (last (x :: y :: l')) with (last (y :: l')) in Hlast.
      apply elem_of_cons in Hin as [->|Hin]; [|by apply IH].
      rewrite Forall_forall in Hx. apply Hx.
      rewrite last_lookup in Hlast. by eapply list_elem_of_lookup_2.
  - destruct Hsorted as [|x l Hs Hx]; [done|]. injection Hhead as <-.
    apply elem_of_cons in Hin as [->|Hin]; [done|].
    rewrite Forall_forall in Hx. by apply Hx.
Qed.

(** X6: when the history is in the order of its dates, the longest streak the
    analytics report lies between 1 and the conversation days they report. *)
Theorem longest_streak_within_conversation_days (db : DB) (cid : Z)
    (character : Character) (r : AnalyticsResponse) (a : Analytics) :
  get_character db cid = Some character ->
  newest_first (get_conversation_history db cid 10000) ->
  get_analytics db cid = Return r ->
  ar_analytics r = Some a ->
  1 <= longest_streak (get_conversation_history db cid 10000)
    <= ao_conversation_days (an_overview a).
Proof.
  intros Hc Hsorted Hr Ha.
  destruct (get_analytics_returns db cid character Hc) as (r' & Hr' & Hspec).
  rewrite Hr in Hr'. injection Hr' as <-. rewrite Ha in Hspec.
  destruct Hspec as ((newest & oldest & Hhead & Hlast & Hdays) & _).
  set (msgs := get_conversation_history db cid 10000) in *.
  assert (Hne : msgs <> []) by (by intros Heq; rewrite Heq in Hhead).
  destruct (longest_streak_on_sorted_dates msgs Hne) as (H1 & [d Hsorted'] & _).
  assert (Hrun : forall k, 0 <= k < longest_streak msgs ->
            d + k ∈ message_dates msgs).
  { intros k Hk. apply sorted_set_elem_of. by apply Hsorted'. }
  split; [done|]. rewrite Hdays.
  assert (Hdate : forall x, x ∈ message_dates msgs ->
            dt_date (timestamp oldest) <= x <= dt_date (timestamp newest)).
  { intros x (msg & -> & Hin)%list_elem_of_fmap.
    by apply (newest_first_bounds msgs). }
  pose proof (Hdate _ (Hrun 0 ltac:(lia))).
  pose proof (Hdate _ (Hrun (longest_streak msgs - 1) ltac:(lia))). lia.
Qed.

(** ** The progress line of the profile page *)

(** X8: for a record whose level is the one of its count, the profile page
    shows, below level 3, the count and the number of messages still needed,
    which is between 1 and 30 and is exactly the number of further messages
    at which the level rises; at level 3 it shows the highest-level line. *)
Theorem profile_page_remaining_messages (db : DB) (cid : Z)
    (character : Character) (f : Favorability) :
  get_character db cid = Some character ->
  get_favorability db cid = Some f ->
  0 <= message_count f ->
  current_level f = simulated_level (message_count f) ->
  exists p,
    get_character_profile db cid = Return p /\
    match loadProfile_progressText (cp_favorability p) with
    | MessagesToNextLevel exchanged remaining =>
        exchanged = message_count f /\
        1 <= remaining <= 30 /\
        simulated_level (exchanged + remaining - 1) = current_level f /\
        simulated_level (exchanged + remaining) = current_level f + 1
    | HighestLevelReached exchanged =>
        exchanged = message_count f /\ current_level f = 3
    end.
Proof.
  intros Hc Hf Hcount Hlevel.
  destruct (get_character_profile_returns db cid character Hc)
    as (p & Hp & _ & Hn & _ & Hnext & _).
  rewrite Hf in Hn, Hnext. exists p. split; [done|].
  unfold loadProfile_progressText. rewrite Hn, Hnext.
  unfold favorability_progress. rewrite Hlevel. unfold simulated_level.
  destruct (50 <=? message_count f) eqn:E50; [|destruct (20 <=? message_count f) eqn:E20];
    cbn.
  - done.
  - apply Z.leb_gt in E50. apply Z.leb_le in E20.
    replace (50 <=? message_count f + (50 - message_count f) - 1) with false
      by (symmetry; apply Z.leb_gt; lia).
    replace (20 <=? message_count f + (50 - message_count f) - 1) with true
      by (symmetry; apply Z.leb_le; lia).
    replace (50 <=? message_count f + (50 - message_count f)) with true
      by (symmetry; apply Z.leb_le; lia).
    repeat split; lia.
  - apply Z.leb_gt in E50, E20.
    replace (50 <=? message_count f + (20 - message_count f) - 1) with false
      by (symmetry; apply Z.leb_gt; lia).
    replace (20 <=? message_count f + (20 - message_count f) - 1) with false
      by (symmetry; apply Z.leb_gt; lia).
    replace (50 <=? message_count f + (20 - message_count f)) with false
      by (symmetry; apply Z.leb_gt; lia).
    replace (20 <=? message_count f + (20 - message_count f)) with true
      by (symmetry; apply Z.leb_le; lia).
    repeat split; lia.
Qed.

(** ** The simulated progression, entry by entry *)

Lemma simulated_level_step (i : Z) :
  i <> 20 -> i <> 50 -> simulated_level i = simulated_level (i - 1).
Proof. unfold simulated_level. intros. repeat case_match; lia. Qed.

Lemma progression_loop_closed (msgs : list Message) (i : Z) :
  (fun e => (pe_message_count e, pe_level e))
    <$> progression_loop i (simulated_level (i - 1)) msgs
  = (if bool_decide (i <= 20 < i + Z.of_nat (length msgs)) then [(20, 2)] else [])
    ++ (if bool_decide (i <= 50 < i + Z.of_nat (length msgs)) then [(50, 3)] else []).
Proof.
  revert i. induction msgs as [|msg rest IH]; intros i.
  - cbn [progression_loop length fmap list_fmap].
    rewrite !bool_decide_false by (simpl; lia). done.
  - cbn [progression_loop].
    assert (Hnext : forall cur, cur = simulated_level (i + 1 - 1) ->
              (fun e => (pe_message_count e, pe_level e))
                <$> progression_loop (i + 1) cur rest
              = (if bool_decide (i + 1 <= 20 < i + 1 + Z.of_nat (length rest))
                 then [(20, 2)] else [])
                ++ (if bool_decide (i + 1 <= 50 < i + 1 + Z.of_nat (length rest))
                    then [(50, 3)] else [])).
    { intros cur ->. apply IH. }
    replace (Z.of_nat (length (msg :: rest))) with (Z.of_nat (length rest) + 1)
      by (simpl; lia).
    destruct (decide (i = 20)) as [->|H20]; [|destruct (decide (i = 50)) as [->|H50]].
    + change (simulated_level 20 =? simulated_level (20 - 1)) with false.
      cbn [negb]. rewrite fmap_cons, Hnext by done. cbn [pe_message_count pe_level].
      repeat case_bool_decide; try lia; done.
    + change (simulated_level 50 =? simulated_level (50 - 1)) with false.
      cbn [negb]. rewrite fmap_cons, Hnext by done. cbn [pe_message_count pe_level].
      repeat case_bool_decide; try lia; done.
    + rewrite (simulated_level_step i H20 H50), Z.eqb_refl. cbn [negb].
      rewrite Hnext by (rewrite <- (simulated_level_step i H20 H50); f_equal; lia).
      repeat case_bool_decide; try lia; done.
Qed.

Lemma progression_loop_timestamps (msgs : list Message) (i cur : Z) :
  Forall (fun e =>
            exists msg,
              msgs !! Z.to_nat (pe_message_count e - i) = Some msg /\
              pe_timestamp e = timestamp msg)
    (progression_loop i cur msgs).
Proof.
  revert i cur. induction msgs as [|msg rest IH]; intros i cur; simpl.
  - constructor.
  - assert (Hrest : forall cur',
              Forall (fun e =>
                        exists m,
                          (msg :: rest) !! Z.to_nat (pe_message_count e - i) = Some m /\
                          pe_timestamp e = timestamp m)
                (progression_loop (i + 1) cur' rest)).
    { intros cur'.
      pose proof (IH (i + 1) cur') as Hall.
      pose proof (progression_loop_lower rest (i + 1) cur') as Hlow.
      rewrite Forall_forall in Hall, Hlow |- *. intros e He.
      destruct (Hall e He) as (m & Hm & Ht). specialize (Hlow e He).
      exists m. split; [|done].
      replace (Z.to_nat (pe_message_count e - i))
        with (S (Z.to_nat (pe_message_count e - (i + 1)))) by lia.
      done. }
    case_match; [|apply Hrest].
    constructor; [|apply Hrest].
    exists msg. simpl. by rewrite Z.sub_diag.
Qed.

(** X1: the progression of the analytics has an entry for level 2 at message
    20 when the history has at least 20 messages, then one for level 3 at
    message 50 when it has at least 50, and nothing else; each entry carries
    the time of the message of that number, counted from the oldest. *)
Theorem favorability_progression_entries (messages : list Message) :
  let n := Z.of_nat (length messages) in
  (fun e => (pe_message_count e, pe_level e)) <$> favorability_progression messages
  = (if bool_decide (20 <= n) then [(20, 2)] else [])
    ++ (if bool_decide (50 <= n) then [(50, 3)] else []) /\
  Forall (fun e =>
            exists msg,
              reverse messages !! Z.to_nat (pe_message_count e - 1) = Some msg /\
              pe_timestamp e = timestamp msg)
    (favorability_progression messages).
Proof.
  cbn zeta. unfold favorability_progression. split.
  - change 1 with (simulated_level (1 - 1)) at 2.
    rewrite progression_loop_closed, length_reverse.
    repeat case_bool_decide; try lia; done.
  - apply progression_loop_timestamps.
Qed.

(** ** The token cache of the image client *)

Section TokenCache.
Import ImageGenerator.

Lemma _get_valid_token_sound (self : Client) (clock : TokenClock) :
  cache_sound self ->
  current_time clock <= time_at_exp clock ->
  cache_sound (_get_valid_token self clock).1 /\
  access_key_id (_get_valid_token self clock).1 = access_key_id self /\
  current_time clock + 300 < exp (_get_valid_token self clock).2 /\
  iss (_get_valid_token self clock).2 = access_key_id self.
Proof.
  unfold cache_sound, _get_valid_token. intros Hsound Hclock.
  destruct (_token self) as [token|] eqn:Htoken.
  - destruct (_token_expiry self - 300 <=? current_time clock) eqn:E; cbn.
    + repeat split; try done; lia.
    + apply Z.leb_gt in E. rewrite Htoken. destruct Hsound as [Hexp Hiss].
      repeat split; try done; lia.
  - cbn. repeat split; try done; lia.
Qed.

Lemma valid_tokens_cons (self : Client) (clock : TokenClock)
    (later : list TokenClock) :
  valid_tokens self (clock :: later)
  = ((valid_tokens (_get_valid_token self clock).1 later).1,
     (_get_valid_token self clock).2
       :: (valid_tokens (_get_valid_token self clock).1 later).2).
Proof.
  change (valid_tokens self (clock :: later))
    with (let '(self1, token) := _get_valid_token self clock in
          let '(self2, tokens) := valid_tokens self1 later in
          (self2, token :: tokens)).
  destruct (_get_valid_token self clock) as [self1 token]. simpl.
  by destruct (valid_tokens self1 later).
Qed.

Lemma valid_tokens_sound (clocks : list TokenClock) (self : Client) :
  cache_sound self ->
  Forall (fun clock => current_time clock <= time_at_exp clock) clocks ->
  Forall2 (fun clock token =>
             current_time clock + 300 < exp token /\
             iss token = access_key_id self)
    clocks (valid_tokens self clocks).2.
Proof.
  revert self. induction clocks as [|clock later IH]; intros self Hsound Hclocks.
  - constructor.
  - apply Forall_cons in Hclocks as [Hclock Hlater].
    destruct (_get_valid_token_sound self clock Hsound Hclock)
      as (Hsound' & Hkey & Hmargin & Hiss).
    rewrite valid_tokens_cons. cbn [snd]. constructor; [done|].
    rewrite <- Hkey. by apply IH.
Qed.

(** X9: every token a client hands out, from its construction on, names the
    client's key and has more than 300 seconds left before it expires at the
    time of the call, as long as the clock does not run backwards within a
    call. *)
Theorem tokens_have_five_minutes_left (key_id : string) (clocks : list TokenClock) :
  Forall (fun clock => current_time clock <= time_at_exp clock) clocks ->
  Forall2 (fun clock token =>
             current_time clock + 300 < exp token /\ iss token = key_id)
    clocks (valid_tokens (init key_id) clocks).2.
Proof. intros H. by apply (valid_tokens_sound clocks (init key_id)). Qed.

(** X10: after a call that generated a token, a call less than 1500 seconds
    later returns that token and leaves the client as it is, and a call from
    1500 seconds on generates a new one. *)
Theorem token_is_cached_for_1500_seconds (self : Client) (first second : TokenClock) :
  token_due self (current_time first) = true ->
  let after := _get_valid_token self first in
  (current_time second < current_time first + 1500 ->
   _get_valid_token after.1 second = after) /\
  (current_time first + 1500 <= current_time second ->
   (_get_valid_token after.1 second).2 = _generate_jwt_token self second /\
   _token_expiry (_get_valid_token after.1 second).1 = current_time second + 1800).
Proof.
  unfold token_due, _get_valid_token. intros Hdue.
  assert (Hfirst :
    (match _token self with
     | Some token =>
         if _token_expiry self - 300 <=? current_time first
         then ({| access_key_id := access_key_id self;
                  _token := Some (_generate_jwt_token self first);
                  _token_expiry := current_time first + 1800 |},
               _generate_jwt_token self first)
         else (self, token)
     | None => ({| access_key_id := access_key_id self;
                   _token := Some (_generate_jwt_token self first);
                   _token_expiry := current_time first + 1800 |},
                _generate_jwt_token self first)
     end)
    = ({| access_key_id := access_key_id self;
          _token := Some (_generate_jwt_token self first);
          _token_expiry := current_time first + 1800 |},
       _generate_jwt_token self first)).
  { destruct (_token self); [by rewrite Hdue|done]. }
  rewrite Hfirst. cbn. split.
  - intros Hsoon.
    by replace (current_time first + 1800 - 300 <=? current_time second)
      with false by (symmetry; apply Z.leb_gt; lia).
  - intros Hlate.
    by replace (current_time first + 1800 - 300 <=? current_time second)
      with true by (symmetry; apply Z.leb_le; lia).
Qed.

End TokenCache.

(** ** Polling for the result of a task *)

Section PollingProperties.
Import ImageGenerator.
Variable str : json -> string.

Lemma is_str_true (v : json) (text : string) :
  is_str v text = true <-> v = JStr text.
Proof.
  destruct v; simpl; try (split; [discriminate|by intros [=]]).
  rewrite String.eqb_eq. split; [by intros ->|by intros [= ->]].
Qed.

(** A round is made only while the waiting time is not used up, and with
    two-second sleeps that is one of the first [max_rounds] rounds. *)
Lemma round_in_time (world : PollWorld) (max_wait : Z) (i : nat) :
  sleeps_two_seconds world ->
  (time_at_test world i - start_time world < inject_Z max_wait)%Q ->
  (i < max_rounds max_wait)%nat.
Proof.
  intros Hsleep Htime. specialize (Hsleep i).
  assert (Hlt : (inject_Z (2 * Z.of_nat i) < inject_Z max_wait)%Q) by lra.
  rewrite <- Zlt_Qlt in Hlt. unfold max_rounds.
  assert (Z.of_nat i + 1 <= (max_wait + 1) / 2); [|lia].
  apply Z.div_le_lower_bound; lia.
Qed.

Lemma poll_loop_returns (fuel : nat) (world : PollWorld) (request : Request)
    (max_wait : Z) (i : nat) :
  sleeps_two_seconds world ->
  (max_rounds max_wait - i < fuel)%nat ->
  is_Some (poll_loop str fuel world request max_wait i).
Proof.
  intros Hsleep. revert i. induction fuel as [|fuel IH]; intros i Hfuel; [lia|].
  cbn [poll_loop].
  destruct (Qlt_le_dec _ _) as [Htime|Htime]; [|done].
  pose proof (round_in_time world max_wait i Hsleep Htime).
  destruct (answer_to world i request) as [result|message]; [|done].
  repeat case_match; try done. apply IH. lia.
Qed.

Lemma poll_loop_first_answers (fuel : nat) (world world' : PollWorld)
    (request : Request) (max_wait : Z) (i : nat) :
  sleeps_two_seconds world ->
  start_time world' = start_time world ->
  (forall j, time_at_test world' j = time_at_test world j) ->
  (forall j, (j < max_rounds max_wait)%nat ->
             answer_to world' j request = answer_to world j request) ->
  poll_loop str fuel world' request max_wait i
  = poll_loop str fuel world request max_wait i.
Proof.
  intros Hsleep Hstart Htimes Hanswers. revert i.
  induction fuel as [|fuel IH]; intros i; [done|].
  cbn [poll_loop]. rewrite Hstart, Htimes.
  destruct (Qlt_le_dec _ _) as [Htime|Htime]; [|done].
  rewrite Hanswers by (by apply (round_in_time world)).
  destruct (answer_to world i request) as [result|message]; [|done].
  repeat case_match; first [done | apply IH].
Qed.

(** X11: when every sleep lasts its two seconds, [get_task_result] comes back
    after at most [(max_wait + 1) / 2] requests: that many rounds of fuel and
    one more always give a result, and the result depends on the answers to
    those first requests only.  In particular with [max_wait <= 0] no request
    is made at all. *)
Theorem get_task_result_is_bounded (fuel : nat) (self : Client)
    (clock : TokenClock) (world : PollWorld) (task_id : json) (max_wait : Z) :
  sleeps_two_seconds world ->
  (max_rounds max_wait < fuel)%nat ->
  is_Some (get_task_result str fuel self clock world task_id max_wait) /\
  forall world',
    start_time world' = start_time world ->
    (forall j, time_at_test world' j = time_at_test world j) ->
    (forall j request, (j < max_rounds max_wait)%nat ->
                       answer_to world' j request = answer_to world j request) ->
    get_task_result str fuel self clock world' task_id max_wait
    = get_task_result str fuel self clock world task_id max_wait.
Proof.
  intros Hsleep Hfuel. unfold get_task_result.
  destruct (_get_valid_token self clock) as [self' token]. split.
  - apply fmap_is_Some, poll_loop_returns; [done|lia].
  - intros world' Hstart Htimes Hanswers. f_equal.
    apply poll_loop_first_answers; try done. intros j Hj. by apply Hanswers.
Qed.

(** The loop gives a result without an ["error"] only as the answer of a
    round that said SUCCESS, reached in time through rounds that all said
    PENDING or RUNNING. *)
Lemma poll_loop_success (fuel : nat) (world : PollWorld) (request : Request)
    (max_wait : Z) (i : nat) (result : dict) :
  poll_loop str fuel world request max_wait i = Some result ->
  "error" ∉ dom result ->
  exists n,
    (i <= n)%nat /\
    answer_to world n request = Answer result /\
    dict_get result "state" = JStr "SUCCESS" /\
    (time_at_test world n - start_time world < inject_Z max_wait)%Q /\
    forall j, (i <= j < n)%nat -> pending (answer_to world j request).
Proof.
  revert i. induction fuel as [|fuel IH]; intros i Hloop Hclean; [done|].
  cbn [poll_loop] in Hloop.
  destruct (Qlt_le_dec _ _) as [Htime|Htime];
    [|injection Hloop as <-; exfalso; apply Hclean; set_solver].
  destruct (answer_to world i request) as [body|message] eqn:Hanswer;
    [|injection Hloop as <-; exfalso; apply Hclean; set_solver].
  cbn zeta in Hloop.
  destruct (is_str (dict_get body "state") "SUCCESS") eqn:Hs.
  { injection Hloop as <-. apply is_str_true in Hs.
    exists i. repeat split; try done. intros j Hj. lia. }
  destruct (is_str (dict_get body "state") "FAILED") eqn:Hf;
    [injection Hloop as <-; exfalso; apply Hclean; set_solver|].
  destruct (is_str (dict_get body "state") "PENDING"
            || is_str (dict_get body "state") "RUNNING") eqn:Hp;
    [|injection Hloop as <-; exfalso; apply Hclean; set_solver].
  destruct (IH (S i) Hloop Hclean) as (n & Hn & Han & Hst & Ht & Hpend).
  exists n. repeat split; try done; [lia|].
  intros j Hj. destruct (decide (j = i)) as [->|Hne]; [|apply Hpend; lia].
  exists body. split; [done|].
  apply orb_true_iff in Hp as [Hp|Hp]; apply is_str_true in Hp; auto.
Qed.

(** X12: [get_task_result] returns a result without an ["error"] entry only
    when the service answered a round with state SUCCESS, within the waiting
    time and after rounds that all answered PENDING or RUNNING; what it
    returns is that answer. *)
Theorem get_task_result_success (fuel : nat) (self self' : Client)
    (clock : TokenClock) (world : PollWorld) (task_id : json) (max_wait : Z)
    (result : dict) :
  get_task_result str fuel self clock world task_id max_wait
    = Some (self', result) ->
  "error" ∉ dom result ->
  exists request n,
    url request = String.append "/v1/imgenstd/result/" (str task_id) /\
    bearer request = (_get_valid_token self clock).2 /\
    answer_to world n request = Answer result /\
    dict_get result "state" = JStr "SUCCESS" /\
    (time_at_test world n - start_time world < inject_Z max_wait)%Q /\
    forall j, (j < n)%nat -> pending (answer_to world j request).
Proof.
  unfold get_task_result. destruct (_get_valid_token self clock) as [self1 token].
  intros Hget Hclean.
  destruct (poll_loop _ _ _ _ _ _) as [r|] eqn:Hloop; [|done].
  injection Hget as <- <-.
  destruct (poll_loop_success _ _ _ _ _ _ Hloop Hclean)
    as (n & _ & Han & Hst & Ht & Hpend).
  exists {| url := String.append "/v1/imgenstd/result/" (str task_id);
            bearer := token; payload := None |}, n.
  do 5 (split; [done|]). intros j Hj. apply Hpend. lia.
Qed.

End PollingProperties.

(** ** Generating the pictures of a character *)

Section GenerationProperties.
Import ImageGenerator.
Variable str : json -> string.

Lemma generate_image_refused (self : Client) (clock : TokenClock)
    (post : Request -> Response) (model_id prompt neg_prompt : string)
    (width height steps : Z) (cfg_scale : Q) (seed samples : Z)
    (reference_image_url : option string) (lora_configs : option (list json)) :
  (forall request, refused (post request)) ->
  let response :=
    (generate_image self clock post model_id prompt neg_prompt width height
       steps cfg_scale seed samples reference_image_url lora_configs).2 in
  "error" ∈ dom response \/ truthy (dict_get response "task_id") = false.
Proof.
  intros Hrefused. unfold generate_image.
  destruct (_get_valid_token self clock) as [self' token]. cbn.
  match goal with |- context [post ?r] => specialize (Hrefused r); destruct (post r) end.
  - exact Hrefused.
  - left. set_solver.
Qed.

Lemma generate_image_accepted (self : Client) (clock : TokenClock)
    (post : Request -> Response) (model_id prompt neg_prompt : string)
    (width height steps : Z) (cfg_scale : Q) (seed samples : Z)
    (reference_image_url : option string) (lora_configs : option (list json)) :
  let response :=
    (generate_image self clock post model_id prompt neg_prompt width height
       steps cfg_scale seed samples reference_image_url lora_configs).2 in
  "error" ∉ dom response ->
  exists submission,
    url submission = "/v1/imgenstd/imgen" /\
    bearer submission = (_get_valid_token self clock).2 /\
    payload submission
      = Some (image_payload model_id prompt neg_prompt width height steps
                cfg_scale seed samples reference_image_url lora_configs) /\
    post submission = Answer response.
Proof.
  unfold generate_image.
  destruct (_get_valid_token self clock) as [self' token]. cbn.
  match goal with |- context [post ?r] => set (submission := r) end.
  destruct (post submission) eqn:E; intros Hclean.
  - exists submission. by repeat split.
  - exfalso. apply Hclean. set_solver.
Qed.

Lemma first_image_refused (fuel : nat) (self : Client) (world : World)
    (task_response : dict) :
  "error" ∈ dom task_response \/ truthy (dict_get task_response "task_id") = false ->
  first_image str fuel self world task_response = Some (self, NoImage).
Proof.
  intros Hrefused. unfold first_image. case_bool_decide as Herr; [done|].
  destruct Hrefused as [?|Hid]; [done|]. by rewrite Hid.
Qed.

Lemma first_image_returns (fuel : nat) (self : Client) (world : World)
    (task_response : dict) :
  sleeps_two_seconds (polls world) ->
  (30 < fuel)%nat ->
  is_Some (first_image str fuel self world task_response).
Proof.
  intros Hsleep Hfuel. unfold first_image.
  case_bool_decide; [done|]. case_match; [done|].
  unfold get_task_result.
  destruct (_get_valid_token self (poll_clock world)) as [self' token].
  match goal with
  | |- context [poll_loop str fuel ?w ?r 60 0] =>
      destruct (poll_loop_returns str fuel w r 60 0 Hsleep) as [result Hloop];
        [unfold max_rounds; simpl; lia|]; rewrite Hloop
  end.
  cbn. by case_match.
Qed.

Lemma first_image_found (fuel : nat) (self self' : Client) (world : World)
    (task_response : dict) (task_id image_data : json) :
  first_image str fuel self world task_response
    = Some (self', FirstImage task_id image_data) ->
  ("error" ∉ dom task_response) /\
  task_id = dict_get task_response "task_id" /\
  truthy task_id = true /\
  exists request n result rest,
    url request = String.append "/v1/imgenstd/result/" (str task_id) /\
    answer_to (polls world) n request = Answer result /\
    dict_get result "state" = JStr "SUCCESS" /\
    (forall j, (j < n)%nat -> pending (answer_to (polls world) j request)) /\
    dict_get result "images" = JList (image_data :: rest).
Proof.
  unfold first_image. case_bool_decide as Herr; [done|].
  destruct (truthy (dict_get task_response "task_id")) eqn:Hid; [|done]. cbn [negb].
  unfold get_task_result.
  destruct (_get_valid_token self (poll_clock world)) as [self1 token].
  match goal with
  | |- context [poll_loop str fuel ?w ?r 60 0] =>
      set (request := r); destruct (poll_loop str fuel w request 60 0)
        as [result|] eqn:Hloop; [|done]
  end.
  cbn. case_bool_decide as Hclean; [done|]. cbn [orb].
  destruct (truthy (dict_get result "images")) eqn:Himages; [|done]. cbn [negb].
  intros Hfound.
  destruct (poll_loop_success str _ _ _ _ _ _ Hloop Hclean)
    as (n & _ & Han & Hst & _ & Hpend0).
  assert (Hurl : url request
            = String.append "/v1/imgenstd/result/"
                (str (dict_get task_response "task_id"))) by done.
  assert (Hpend : forall j, (j < n)%nat ->
            pending (answer_to (polls world) j request))
    by (intros j Hj; apply Hpend0; lia).
  destruct (dict_get result "images") as [| | | | | |[|first rest]|] eqn:Him;
    try done.
  injection Hfound as <- <- <-.
  split; [done|]. split; [done|]. split; [done|].
  by exists request, n, result, rest.
Qed.

(** X13: when the submission is not accepted (the request fails, or the
    answer carries an ["error"] or no usable task id) each of the three
    [generate_character_...] functions returns [None] without asking for a
    result even once. *)
Theorem refused_submission_is_not_polled (self : Client) (world : World)
    (appearance character_name activity user_description scene model_id : string)
    (face_seed : Z) (reference_image_url : option string) (seed : option Z) :
  (forall request, refused (post world request)) ->
  let self' := (_get_valid_token self (submit_clock world)).1 in
  generate_character_face str 0 self world appearance character_name model_id
      face_seed
    = Some (self', Returned None) /\
  generate_character_activity str 0 self world appearance character_name
      activity model_id reference_image_url seed
    = Some (self', Returned None) /\
  generate_character_with_user str 0 self world appearance character_name
      user_description scene model_id reference_image_url seed
    = Some (self', Returned None).
Proof.
  intros Hrefused. cbn zeta.
  unfold generate_character_face, generate_character_activity,
    generate_character_with_user.
  repeat split.
  all: match goal with
       | |- context [generate_image ?s ?c ?p ?m ?pr ?n ?w ?h ?st ?cf ?sd ?sa ?r ?l] =>
           pose proof (generate_image_refused s c p m pr n w h st cf sd sa r l Hrefused)
             as Hresponse;
           assert (Hself : (generate_image s c p m pr n w h st cf sd sa r l).1
                           = (_get_valid_token s c).1)
             by (unfold generate_image; by destruct (_get_valid_token s c));
           destruct (generate_image s c p m pr n w h st cf sd sa r l)
             as [self1 task_response]
       end.
  all: cbn [fst snd] in *; subst self1.
  all: by rewrite (first_image_refused _ _ _ _ Hresponse).
Qed.

(** X14: with two-second sleeps and fuel for 31 rounds each of the three
    [generate_character_...] functions comes back, with a value or an
    exception: the wait for the result ends after at most 30 requests. *)
Theorem generation_comes_back (fuel : nat) (self : Client) (world : World)
    (appearance character_name activity user_description scene model_id : string)
    (face_seed : Z) (reference_image_url : option string) (seed : option Z) :
  sleeps_two_seconds (polls world) ->
  (30 < fuel)%nat ->
  is_Some (generate_character_face str fuel self world appearance
             character_name model_id face_seed) /\
  is_Some (generate_character_activity str fuel self world appearance
             character_name activity model_id reference_image_url seed) /\
  is_Some (generate_character_with_user str fuel self world appearance
             character_name user_description scene model_id
             reference_image_url seed).
Proof.
  intros Hsleep Hfuel.
  unfold generate_character_face, generate_character_activity,
    generate_character_with_user.
  repeat split.
  all: match goal with
       | |- context [generate_image ?s ?c ?p ?m ?pr ?n ?w ?h ?st ?cf ?sd ?sa ?r ?l] =>
           destruct (generate_image s c p m pr n w h st cf sd sa r l)
             as [self1 task_response]
       end.
  all: destruct (first_image_returns fuel self1 world task_response Hsleep Hfuel)
         as [[self2 found] Hfound]; by rewrite Hfound.
Qed.

(** X15: [generate_character_face] returns a picture only when the service
    accepted the submission (a 960 by 960 request for one sample with the
    given seed), answered with a usable task id, and later answered a poll
    for that task with state SUCCESS and a list of images; the picture is
    the [raw] and [seed] of the first image together with the task id. *)
Theorem face_comes_from_a_finished_task (fuel : nat) (self self' : Client)
    (world : World) (appearance character_name model_id : string) (seed : Z)
    (face : dict) :
  generate_character_face str fuel self world appearance character_name
      model_id seed
    = Some (self', Returned (Some face)) ->
  exists submission prompt body poll n result image_data rest,
    payload submission
      = Some (image_payload model_id prompt "" 960 960 50 8 seed 1 None None) /\
    post world submission = Answer body /\
    ("error" ∉ dom body) /\
    truthy (dict_get body "task_id") = true /\
    url poll = String.append "/v1/imgenstd/result/" (str (dict_get body "task_id")) /\
    answer_to (polls world) n poll = Answer result /\
    dict_get result "state" = JStr "SUCCESS" /\
    dict_get result "images" = JList (JObj image_data :: rest) /\
    face = {[ "url" := dict_get image_data "raw";
              "seed" := dict_get image_data "seed";
              "task_id" := dict_get body "task_id" ]}.
Proof.
  unfold generate_character_face.
  match goal with
  | |- context [generate_image ?s ?c ?p ?m ?pr ?n ?w ?h ?st ?cf ?sd ?sa ?r ?l] =>
      pose proof (generate_image_accepted s c p m pr n w h st cf sd sa r l)
        as Haccepted;
      destruct (generate_image s c p m pr n w h st cf sd sa r l)
        as [self1 task_response]
  end.
  cbn [snd] in Haccepted.
  destruct (first_image str fuel self1 world task_response)
    as [[self2 found]|] eqn:Hfirst; [|done].
  cbn. intros [= <- Hface].
  destruct found as [|e|task_id image_data]; [done..|].
  destruct (first_image_found _ _ _ _ _ _ _ Hfirst)
    as (Hclean & -> & Hid & poll & n & result & rest & Hurl & Han & Hst & _ & Him).
  destruct (Haccepted Hclean) as (submission & _ & _ & Hpayload & Hpost).
  destruct image_data as [| | | | | | |image]; try done.
  cbn in Hface. injection Hface as <-.
  by eexists submission, _, task_response, poll, n, result, image, rest.
Qed.

(** X16: [generate_character_activity] returns a picture only when the
    service accepted its submission, a 960 by 1280 request with the activity
    prompt, and [generate_character_with_user] only when the service accepted
    its own, a 1280 by 960 request with the prompt of the two people; each
    asks for one sample with the given seed or 0 and the reference image, and
    needs a later poll for the task answered with state SUCCESS and a list of
    images; the picture is the [raw] of the first image. *)
Theorem scene_comes_from_a_finished_task (fuel : nat) (self self' : Client)
    (world : World)
    (appearance character_name activity user_description scene model_id : string)
    (reference_image_url : option string) (seed : option Z) (picture : dict) :
  (generate_character_activity str fuel self world appearance character_name
       activity model_id reference_image_url seed
     = Some (self', Returned (Some picture)) ->
   exists submission body poll n result image_data rest,
     payload submission
       = Some (image_payload model_id
                 (String.append character_name
                    (String.append ", "
                       (String.append appearance
                          (String.append ", "
                             (String.append activity
                                ", full body, dynamic pose, detailed background")))))
                 "" 960 1280 50 8 (seed_or_0 seed) 1 reference_image_url None) /\
     post world submission = Answer body /\
     ("error" ∉ dom body) /\
     truthy (dict_get body "task_id") = true /\
     url poll = String.append "/v1/imgenstd/result/" (str (dict_get body "task_id")) /\
     answer_to (polls world) n poll = Answer result /\
     dict_get result "state" = JStr "SUCCESS" /\
     dict_get result "images" = JList (JObj image_data :: rest) /\
     picture = {[ "url" := dict_get image_data "raw" ]}) /\
  (generate_character_with_user str fuel self world appearance character_name
       user_description scene model_id reference_image_url seed
     = Some (self', Returned (Some picture)) ->
   exists submission body poll n result image_data rest,
     payload submission
       = Some (image_payload model_id
                 (String.append character_name
                    (String.append ", "
                       (String.append appearance
                          (String.append ", and "
                             (String.append user_description
                                (String.append ", "
                                   (String.append scene
                                      ", two people, happy together, romantic atmosphere")))))))
                 "" 1280 960 50 8 (seed_or_0 seed) 1 reference_image_url None) /\
     post world submission = Answer body /\
     ("error" ∉ dom body) /\
     truthy (dict_get body "task_id") = true /\
     url poll = String.append "/v1/imgenstd/result/" (str (dict_get body "task_id")) /\
     answer_to (polls world) n poll = Answer result /\
     dict_get result "state" = JStr "SUCCESS" /\
     dict_get result "images" = JList (JObj image_data :: rest) /\
     picture = {[ "url" := dict_get image_data "raw" ]}).
Proof.
  unfold generate_character_activity, generate_character_with_user.
  split.
  all: match goal with
       | |- context [generate_image ?s ?c ?p ?m ?pr ?n ?w ?h ?st ?cf ?sd ?sa ?r ?l] =>
           pose proof (generate_image_accepted s c p m pr n w h st cf sd sa r l)
             as Haccepted;
           destruct (generate_image s c p m pr n w h st cf sd sa r l)
             as [self1 task_response]
       end.
  all: cbn [snd] in Haccepted.
  all: destruct (first_image str fuel self1 world task_response)
         as [[self2 found]|] eqn:Hfirst; [|done].
  all: cbn; intros [= <- Hpicture].
  all: destruct found as [|e|task_id image_data]; [done..|].
  all: destruct (first_image_found _ _ _ _ _ _ _ Hfirst)
         as (Hclean & -> & Hid & poll & n & result & rest & Hurl & Han & Hst & _ & Him).
  all: destruct (Haccepted Hclean) as (submission & _ & _ & Hpayload & Hpost).
  all: destruct image_data as [| | | | | | |image]; try done.
  all: cbn in Hpicture; injection Hpicture as <-.
  all: by exists submission, task_response, poll, n, result, image, rest.
Qed.

End GenerationProperties.


(** ** The further properties at work on the samples *)

Lemma hourly_counts_cover_messages_witness :
  foldr Z.add 0
    (occurrences (fun msg => dt_hour (timestamp msg)) sample_history <$> seqZ 0 24)
  = Z.of_nat (length sample_history).
Proof.
  apply (hourly_counts_cover_messages sample_history).
  repeat constructor; simpl; lia.
Defined.

Lemma longest_streak_is_longest_run_witness :
  1 <= longest_streak sample_history /\
  (exists d, streak_from sample_history d (longest_streak sample_history)) /\
  (forall d n, streak_from sample_history d n -> n <= longest_streak sample_history).
Proof. apply (longest_streak_is_longest_run sample_history). discriminate. Defined.

Lemma longest_streak_within_conversation_days_witness :
  exists r a,
    get_analytics busy_db 1 = Return r /\
    ar_analytics r = Some a /\
    1 <= longest_streak (get_conversation_history busy_db 1 10000)
      <= ao_conversation_days (an_overview a).
Proof.
  eexists _, _. split; [vm_compute; reflexivity|]. split; [reflexivity|].
  eapply (longest_streak_within_conversation_days busy_db 1 yuki).
  - reflexivity.
  - unfold newest_first. vm_compute get_conversation_history.
    repeat constructor; simpl; lia.
  - vm_compute. reflexivity.
  - reflexivity.
Defined.

Lemma profile_page_remaining_messages_witness :
  exists p,
    get_character_profile chatting_db 1 = Return p /\
    loadProfile_progressText (cp_favorability p) = MessagesToNextLevel 49 1.
Proof.
  destruct (profile_page_remaining_messages chatting_db 1 yuki
              (mk_Favorability 2 49 (day 3)) eq_refl eq_refl)
    as (p & Hp & Htext).
  - simpl. lia.
  - reflexivity.
  - exists p. split; [exact Hp|].
    destruct (loadProfile_progressText (cp_favorability p))
      as [exchanged remaining|exchanged].
    + destruct Htext as (-> & Hrange & Hbefore & Hafter). simpl in *.
      f_equal. unfold simulated_level in Hbefore, Hafter.
      repeat case_match; lia.
    + destruct Htext as [_ Hlevel]. simpl in Hlevel. lia.
Defined.

Lemma tokens_have_five_minutes_left_witness :
  Forall2 (fun clock token =>
             ImageGenerator.current_time clock + 300 < ImageGenerator.exp token /\
             ImageGenerator.iss token = "key")
    [at_second 100; at_second 200; at_second 2000]
    (ImageGenerator.valid_tokens (ImageGenerator.init "key")
       [at_second 100; at_second 200; at_second 2000]).2.
Proof.
  apply (tokens_have_five_minutes_left "key").
  repeat constructor; simpl; lia.
Defined.

Lemma token_is_cached_for_1500_seconds_witness :
  ImageGenerator._get_valid_token
    (ImageGenerator._get_valid_token (ImageGenerator.init "key") (at_second 100)).1
    (at_second 1000)
  = ImageGenerator._get_valid_token (ImageGenerator.init "key") (at_second 100).
Proof.
  apply (token_is_cached_for_1500_seconds (ImageGenerator.init "key")
           (at_second 100) (at_second 1000)).
  - reflexivity.
  - simpl. lia.
Defined.

Lemma finishing_polls_sleep : sleeps_two_seconds finishing_polls.
Proof. intros i. simpl. rewrite Qplus_0_l. apply Qle_refl. Qed.

Lemma get_task_result_is_bounded_witness :
  is_Some (ImageGenerator.get_task_result sample_str 31
             (ImageGenerator.init "key") (at_second 1) finishing_polls
             (JStr "task-1") 60).
Proof.
  apply (get_task_result_is_bounded sample_str 31 (ImageGenerator.init "key")
           (at_second 1) finishing_polls (JStr "task-1") 60).
  - exact finishing_polls_sleep.
  - vm_compute. lia.
Defined.

Lemma get_task_result_success_witness :
  exists request n result,
    ImageGenerator.answer_to finishing_polls n request = ImageGenerator.Answer result /\
    ImageGenerator.dict_get result "state" = JStr "SUCCESS".
Proof.
  destruct (ImageGenerator.get_task_result sample_str 31
              (ImageGenerator.init "key") (at_second 1) finishing_polls
              (JStr "task-1") 60) as [[self' result]|] eqn:Hget;
    [|vm_compute in Hget; discriminate].
  destruct (get_task_result_success sample_str 31 (ImageGenerator.init "key")
              self' (at_second 1) finishing_polls (JStr "task-1") 60 result Hget)
    as (request & n & _ & _ & Hanswer & Hstate & _).
  - vm_compute in Hget. injection Hget as _ <-.
    apply not_elem_of_dom. vm_compute. reflexivity.
  - by exists request, n, result.
Defined.

Lemma refused_submission_is_not_polled_witness :
  ImageGenerator.generate_character_face sample_str 0 (ImageGenerator.init "key")
    refusing_world "long hair" "Yuki" "model-1" 7
  = Some ((ImageGenerator._get_valid_token (ImageGenerator.init "key")
             (at_second 100)).1,
          ImageGenerator.Returned None).
Proof.
  apply (refused_submission_is_not_polled sample_str (ImageGenerator.init "key")
           refusing_world "long hair" "Yuki" "reading" "a man" "a park" "model-1"
           7 None None).
  intros request. exact I.
Defined.

Lemma generation_comes_back_witness :
  is_Some (ImageGenerator.generate_character_face sample_str 31
             (ImageGenerator.init "key") accepting_world "long hair" "Yuki"
             "model-1" 7).
Proof.
  apply (generation_comes_back sample_str 31 (ImageGenerator.init "key")
           accepting_world "long hair" "Yuki" "reading" "a man" "a park"
           "model-1" 7 None None).
  - exact finishing_polls_sleep.
  - lia.
Defined.

Lemma face_comes_from_a_finished_task_witness :
  exists n poll result,
    ImageGenerator.answer_to finishing_polls n poll = ImageGenerator.Answer result /\
    ImageGenerator.dict_get result "state" = JStr "SUCCESS" /\
    ImageGenerator.truthy (ImageGenerator.dict_get result "images") = true.
Proof.
  destruct (ImageGenerator.generate_character_face sample_str 31
              (ImageGenerator.init "key") accepting_world "long hair" "Yuki"
              "model-1" 7) as [[self' [[face|]|e]]|] eqn:Hcall;
    try (vm_compute in Hcall; discriminate).
  destruct (face_comes_from_a_finished_task sample_str 31
              (ImageGenerator.init "key") self' accepting_world "long hair"
              "Yuki" "model-1" 7 face Hcall)
    as (submission & prompt & body & poll & n & result & image & rest
        & _ & _ & _ & _ & _ & Hanswer & Hstate & Himages & _).
  exists n, poll, result. split; [exact Hanswer|]. split; [exact Hstate|].
  rewrite Himages. reflexivity.
Defined.

Lemma scene_comes_from_a_finished_task_witness :
  exists n poll result,
    ImageGenerator.answer_to finishing_polls n poll = ImageGenerator.Answer result /\
    ImageGenerator.dict_get result "state" = JStr "SUCCESS" /\
    ImageGenerator.truthy (ImageGenerator.dict_get result "images") = true.
Proof.
  destruct (ImageGenerator.generate_character_activity sample_str 31
              (ImageGenerator.init "key") accepting_world "long hair" "Yuki"
              "reading" "model-1" (Some "https://img/0.png") None)
    as [[self' [[picture|]|e]]|] eqn:Hcall;
    try (vm_compute in Hcall; discriminate).
  destruct (scene_comes_from_a_finished_task sample_str 31
              (ImageGenerator.init "key") self' accepting_world "long hair"
              "Yuki" "reading" "a man" "a park" "model-1"
              (Some "https://img/0.png") None picture) as [Hactivity _].
  destruct (Hactivity Hcall)
    as (submission & body & poll & n & result & image & rest
        & _ & _ & _ & _ & _ & Hanswer & Hstate & Himages & _).
  exists n, poll, result. split; [exact Hanswer|]. split; [exact Hstate|].
  rewrite Himages. reflexivity.
Defined.
